(** * Resume Customizer ([app.py]): capability negotiation, singletons,
      session state and health checks

    A shallow embedding of the control logic of [src/app.py].  Python
    values that the code inspects are modelled by [pyval]; calls into
    optional collaborators (database, requirements manager, psutil, ...)
    are read from a record describing how each call ends in the run under
    consideration: it returns a value or raises.  Python's [try]/[except]
    is modelled by a small state-and-exception monad in which the state
    survives a raise, as a mutated dict or a written log does.  Texts
    shown to the user or logged are given without their emoji and line
    breaks. *)

From Stdlib Require Import ZArith QArith String List Lia.
From Stdlib Require Floats Uint63.
From stdpp Require Import base option list gmap strings pretty.

Local Open Scope string_scope.
Local Open Scope list_scope.

(** ** Python values *)

(** Object identities are heap addresses; two references are the same
    object exactly when their addresses are equal. *)
Definition ref := nat.

#[warnings="-register-all"]
Inductive pyval : Type :=
| VNone
| VBool (b : bool)
| VInt (z : Z)
| VFloat (q : Q)
| VStr (s : string)
| VList (l : list pyval)
| VDict (d : list (string * pyval))
| VObj (r : ref).

(** [bool(v)]: Python truthiness. *)
Definition truthy (v : pyval) : bool :=
  match v with
  | VNone => false
  | VBool b => b
  | VInt z => negb (Z.eqb z 0)
  | VFloat q => negb (Qeq_bool q 0)
  | VStr s => negb (String.eqb s "")
  | VList l => match l with [] => false | _ => true end
  | VDict d => match d with [] => false | _ => true end
  | VObj _ => true
  end.

(** ** Exceptions *)

(** The handlers of [app.py] distinguish [ImportError] (with its subclass
    [ModuleNotFoundError]) from every other [Exception]. *)
Inductive exn_class : Type := ImportError | OtherException.

Record exn : Type := Exn { exn_cls : exn_class; exn_msg : string }.

Inductive result (A : Type) : Type :=
| Ret (a : A)
| Raise (e : exn).
Arguments Ret {A} a.
Arguments Raise {A} e.

(** An import statement (or any call) came back without raising. *)
Definition imported {A} (r : result A) : bool :=
  match r with Ret _ => true | Raise _ => false end.

(** [d[key]] on a Python value: [KeyError] on a missing key, [TypeError]
    on a value that is not subscriptable by a string. *)
Fixpoint assoc_get (d : list (string * pyval)) (key : string) : option pyval :=
  match d with
  | [] => None
  | (k, v) :: d' => if String.eqb k key then Some v else assoc_get d' key
  end.

Definition py_getitem (v : pyval) (key : string) : result pyval :=
  match v with
  | VDict d =>
      match assoc_get d key with
      | Some x => Ret x
      | None => Raise (Exn OtherException ("KeyError: " ++ key))
      end
  | _ => Raise (Exn OtherException "TypeError: object is not subscriptable")
  end.

(** ** The effect monad: state that survives exceptions *)

Module Py.

Definition t (S A : Type) : Type := S -> S * result A.

Definition ret {S A} (a : A) : t S A := fun s => (s, Ret a).

Definition raise {S A} (e : exn) : t S A := fun s => (s, Raise e).

Definition bind {S A B} (m : t S A) (k : A -> t S B) : t S B :=
  fun s =>
    match m s with
    | (s', Ret a) => k a s'
    | (s', Raise e) => (s', Raise e)
    end.

(** The outcome of an external call, lifted into the monad. *)
Definition call {S A} (r : result A) : t S A := fun s => (s, r).

Definition modify {S} (f : S -> S) : t S unit := fun s => (f s, Ret tt).

Definition get {S} : t S S := fun s => (s, Ret s).

(** [try: body except ...]: [handler e] is the first matching [except]
    clause, [None] when no clause matches and [e] propagates. *)
Definition try_except {S A} (body : t S A) (handler : exn -> option (t S A))
  : t S A :=
  fun s =>
    match body s with
    | (s', Ret a) => (s', Ret a)
    | (s', Raise e) =>
        match handler e with
        | Some h => h s'
        | None => (s', Raise e)
        end
    end.

(** [except ImportError as e: h e]. *)
Definition except_ImportError {S A} (h : exn -> t S A) : exn -> option (t S A) :=
  fun e => match exn_cls e with ImportError => Some (h e) | OtherException => None end.

(** [except Exception as e: h e]. *)
Definition except_Exception {S A} (h : exn -> t S A) : exn -> option (t S A) :=
  fun e => Some (h e).

(** Clauses are tried in order. *)
Definition orelse {S A} (h1 h2 : exn -> option (t S A)) : exn -> option (t S A) :=
  fun e => match h1 e with Some k => Some k | None => h2 e end.

End Py.

Declare Scope py_scope.
Delimit Scope py_scope with py.
Notation "'let*' x ':=' m 'in' k" := (Py.bind m (fun x => k))
  (at level 10, x name, m at level 100, k at level 200) : py_scope.
Notation "'run' m 'then' k" := (Py.bind m (fun _ => k))
  (at level 10, m at level 100, k at level 200) : py_scope.

(** ** Logging *)

Inductive log_level : Type := INFO | WARNING | ERROR.

Definition log := list (log_level * string).

(** ** The requirements-storage capability ([get_cached_requirements_manager]) *)

Module Requirements.

(** An instance of [requirements_integration.RequirementsManager]. *)
Record RequirementsManager : Type := { use_database : bool }.

(** How the collaborators behave in one run of the resolver. *)
Record world : Type := {
  (** [from database import initialize_database, ...] *)
  import_database : result unit;
  setup_database_environment : result pyval;
  initialize_database : result pyval;
  initialize_database_schema : result pyval;
  (** [from requirements_integration import RequirementsManager] *)
  import_requirements_integration : result unit;
  (** [RequirementsManager(use_database=b)]: the constructor's outcome. *)
  construct : bool -> result unit
}.

Definition logger (lvl : log_level) (msg : string) : Py.t log unit :=
  Py.modify (fun l => l ++ [(lvl, msg)]).

Local Open Scope py_scope.

(** [from requirements_integration import RequirementsManager;
     return RequirementsManager(use_database=b)]. *)
Definition import_and_construct (w : world) (b : bool)
  : Py.t log (option RequirementsManager) :=
  run Py.call (import_requirements_integration w) then
  run Py.call (construct w b) then
  Py.ret (Some {| use_database := b |}).

(** The inner [try]/[except ImportError] of both outer handlers
    (lines 231-236 and 239-244). *)
Definition fallback_or_None (w : world) : Py.t log (option RequirementsManager) :=
  Py.try_except
    (import_and_construct w false)
    (Py.except_ImportError (fun _ =>
       run logger ERROR "RequirementsManager not available" then
       Py.ret None)).

Definition get_cached_requirements_manager (w : world)
  : Py.t log (option RequirementsManager) :=
  Py.try_except
    (run Py.call (import_database w) then
     let* env_result := Py.call (setup_database_environment w) in
     let* success := Py.call (py_getitem env_result "success") in
     if negb (truthy success) then
       run logger WARNING
         "Database environment setup failed, using JSON fallback" then
       import_and_construct w false
     else
       let* db_init_success := Py.call (initialize_database w) in
       if negb (truthy db_init_success) then
         run logger WARNING
           "Database initialization failed, using JSON fallback" then
         import_and_construct w false
       else
         Py.try_except
           (let* schema_success := Py.call (initialize_database_schema w) in
            if negb (truthy schema_success) then
              run logger WARNING
                "Database schema initialization failed, using JSON fallback" then
              import_and_construct w false
            else
              run logger INFO
                "Database fully initialized, using PostgreSQL backend" then
              import_and_construct w true)
           (Py.except_Exception (fun e =>
              run logger WARNING
                ("Database schema initialization exception: " ++ exn_msg e
                 ++ ", using JSON fallback") then
              import_and_construct w false)))
    (Py.orelse
       (Py.except_ImportError (fun e =>
          run logger WARNING
            ("Database dependencies not available: " ++ exn_msg e
             ++ ", using JSON fallback") then
          fallback_or_None w))
       (Py.except_Exception (fun e =>
          run logger ERROR
            ("Error initializing requirements manager: " ++ exn_msg e
             ++ ", using JSON fallback") then
          fallback_or_None w))).

(** What the resolver hands to its caller, starting from an empty log. *)
Definition resolve (w : world) : result (option RequirementsManager) :=
  snd (get_cached_requirements_manager w []).

(** A step of the database probe succeeded: it returned a truthy value. *)
Definition step_ok (r : result pyval) : bool :=
  match r with Ret v => truthy v | Raise _ => false end.

(** Every step of the database tier succeeded: the module imports, the
    environment setup reports [success], the connection and the schema
    initialise. *)
Definition database_probe (w : world) : bool :=
  imported (import_database w)
  && match setup_database_environment w with
     | Ret env_result => step_ok (py_getitem env_result "success")
     | Raise _ => false
     end
  && step_ok (initialize_database w)
  && step_ok (initialize_database_schema w).

End Requirements.

(** ** Lazily loaded module globals ([get_ui_components] and its siblings) *)

Module Singleton.

(** The module-level state the lazy getter reads and writes.
    [_ui_components] is the global of that name ([None] until the first
    successful construction).  [imports] and [constructions] count how
    often the [import] statement and the [UIComponents()] constructor
    have been executed; [heap_next] is the next fresh object address. *)
Record globals : Type := {
  _ui_components : option ref;
  imports : nat;
  constructions : nat;
  heap_next : ref
}.

(** How [from ui.components import UIComponents] and [UIComponents()]
    end, by the number of earlier executions of each. *)
Record world : Type := {
  import_UIComponents : nat -> result unit;
  UIComponents_init : nat -> result unit
}.

Local Open Scope py_scope.

(** [from ui.components import UIComponents]. *)
Definition do_import (w : world) : Py.t globals unit :=
  let* g := Py.get in
  run Py.modify (fun g => {| _ui_components := _ui_components g;
                             imports := S (imports g);
                             constructions := constructions g;
                             heap_next := heap_next g |}) then
  Py.call (import_UIComponents w (imports g)).

(** [UIComponents()]: the factory.  A constructor that returns yields a
    fresh object, which is never [None]. *)
Definition UIComponents (w : world) : Py.t globals ref :=
  let* g := Py.get in
  run Py.modify (fun g => {| _ui_components := _ui_components g;
                             imports := imports g;
                             constructions := S (constructions g);
                             heap_next := heap_next g |}) then
  run Py.call (UIComponents_init w (constructions g)) then
  run Py.modify (fun g => {| _ui_components := _ui_components g;
                             imports := imports g;
                             constructions := constructions g;
                             heap_next := S (heap_next g) |}) then
  Py.ret (heap_next g).

(** [_ui_components = r]. *)
Definition set_ui_components (r : ref) : Py.t globals unit :=
  Py.modify (fun g => {| _ui_components := Some r;
                         imports := imports g;
                         constructions := constructions g;
                         heap_next := heap_next g |}).

Definition get_ui_components (w : world) : Py.t globals ref :=
  let* g := Py.get in
  match _ui_components g with
  | Some r => Py.ret r
  | None =>
      run do_import w then
      let* r := UIComponents w in
      run set_ui_components r then
      Py.ret r
  end.

(** [n] successive calls of the getter, with what each of them gave. *)
Fixpoint calls (w : world) (n : nat) (g : globals) : globals * list (result ref) :=
  match n with
  | O => (g, [])
  | S n' =>
      let '(g1, r) := get_ui_components w g in
      let '(g2, rs) := calls w n' g1 in
      (g2, r :: rs)
  end.



Definition fresh_module : globals :=
  {| _ui_components := None; imports := 0; constructions := 0; heap_next := 0 |}.

End Singleton.

(** ** Session state ([get_default_session_state], [initialize_session_state]) *)

Module Session.

(** [st.session_state]: a mapping from field names to values. *)
Abbreviation session_state := (gmap string pyval).

(** The dict literal returned by [get_default_session_state], as its
    [items()] in insertion order. *)
Definition get_default_session_state : list (string * pyval) :=
  [ ("initialized", VBool true);
    ("resume_text", VStr "");
    ("job_description", VStr "");
    ("customized_resume", VStr "");
    ("uploaded_files", VList []);
    ("processing_status", VDict []);
    ("email_sent", VBool false);
    ("bulk_results", VList []);
    ("current_tab", VStr "Upload Resume");
    ("performance_data", VDict []);
    ("error_history", VList []);
    ("last_health_check", VNone);
    ("async_tasks", VDict []);
    ("ui_preferences",
      VDict [("theme", VStr "light");
             ("show_debug", VBool false);
             ("auto_save", VBool true)]) ].

(** One iteration of the loop:
    [if key not in st.session_state: st.session_state[key] = value]. *)
Definition set_default (s : session_state) (item : string * pyval) : session_state :=
  match s !! item.1 with
  | Some _ => s
  | None => <[item.1 := item.2]> s
  end.

(** [for key, value in defaults.items(): ...]. *)
Definition apply_defaults (defaults : list (string * pyval)) (s : session_state)
  : session_state :=
  fold_left set_default defaults s.

(** [initialize_session_state], with the mapping that
    [get_default_session_state()] returned as a parameter. *)
Definition initialize_with (defaults : list (string * pyval)) (s : session_state)
  : session_state :=
  match s !! "initialized" with
  | Some _ => s
  | None => apply_defaults defaults s
  end.

Definition initialize_session_state (s : session_state) : session_state :=
  initialize_with get_default_session_state s.

(** [st.session_state[key] = value]. *)
Definition set_field (key : string) (value : pyval) (s : session_state)
  : session_state :=
  <[key := value]> s.

(** The value the defaults give to [key]: the first item with that key. *)
Fixpoint default_of (defaults : list (string * pyval)) (key : string) : option pyval :=
  match defaults with
  | [] => None
  | (k, v) :: rest => if String.eqb k key then Some v else default_of rest key
  end.

End Session.

(** ** The health check ([check_application_health]) *)

Module Health.

(** Entries of [health_status['issues']]. *)
Inductive issue : Type :=
| MissingRequiredDependency (e : string)
    (** f"Missing required dependency: {e}" *)
| HealthCheckFailed
    (** "Health check failed", the entry of [return_on_error] *).

(** Entries of [health_status['warnings']]; a constructor's arguments are
    the values its f-string formats. *)
Inductive warning : Type :=
| PerformanceMonitorNotAvailable
| HighMemoryUsage (percent : Q)
| CriticalMemoryUsage
| TryFewerFiles
| MemoryCleanupPerformed (saved_mb : Q)
| MemoryCleanupAttempted
| MemoryOptimizationNotAvailable
| MemoryCleanupFailed
| PsutilNotAvailable
| LowDiskSpace (percent : Q)
| DiskSpaceCheckFailed (e : string).

(** The dict [health_status] built by the function body. *)
Record health_status : Type := {
  healthy : bool;
  issues : list issue;
  warnings : list warning
}.

(** What a caller of the decorated function can receive: [None], the
    dict built by the body, or the [return_on_error] dict, which has the
    keys ['healthy'] and ['issues'] only. *)
Inductive returned : Type :=
| ReturnedNone
| ReturnedStatus (h : health_status)
| ReturnedOnError (healthy_value : bool) (issues_value : list issue).

(** How the modules and probes that the body touches behave in one run. *)
Record world : Type := {
  import_streamlit : result unit;
  import_docx : result unit;
  import_io : result unit;
  PERFORMANCE_MONITOR_AVAILABLE : bool;
  performance_monitor : pyval;
  import_psutil : result unit;
  (** [psutil.virtual_memory().percent] *)
  virtual_memory_percent : result Q;
  MEMORY_OPTIMIZER_AVAILABLE : bool;
  (** [memory_optimizer.optimize_memory(force=True)] *)
  optimize_memory : result pyval;
  (** [psutil.disk_usage('/').percent] *)
  disk_usage_percent : result Q
}.

(** The state of the body: the dict under construction and the log. *)
Record body_state : Type := { hs : health_status; hlog : log }.

Definition initial_status : health_status :=
  {| healthy := true; issues := []; warnings := [] |}.

Local Open Scope py_scope.

(** [health_status['warnings'].append(x)]. *)
Definition append_warning (x : warning) : Py.t body_state unit :=
  Py.modify (fun s =>
    {| hs := {| healthy := healthy (hs s);
                issues := issues (hs s);
                warnings := warnings (hs s) ++ [x] |};
       hlog := hlog s |}).

(** [health_status['issues'].append(x)]. *)
Definition append_issue (x : issue) : Py.t body_state unit :=
  Py.modify (fun s =>
    {| hs := {| healthy := healthy (hs s);
                issues := issues (hs s) ++ [x];
                warnings := warnings (hs s) |};
       hlog := hlog s |}).

(** [health_status['healthy'] = b]. *)
Definition set_healthy (b : bool) : Py.t body_state unit :=
  Py.modify (fun s =>
    {| hs := {| healthy := b;
                issues := issues (hs s);
                warnings := warnings (hs s) |};
       hlog := hlog s |}).

Definition logger (lvl : log_level) (msg : string) : Py.t body_state unit :=
  Py.modify (fun s => {| hs := hs s; hlog := hlog s ++ [(lvl, msg)] |}).

(** [x > y] on the percentages read from psutil. *)
Definition Qgtb (x y : Q) : bool := negb (Qle_bool x y).

(** The value formatted by [{v:.1f}]: numbers format, anything else
    raises. *)
Definition format_1f (v : pyval) : result Q :=
  match v with
  | VInt z => Ret (inject_Z z)
  | VFloat q => Ret q
  | VBool b => Ret (if b then 1 else 0)%Q
  | _ => Raise (Exn OtherException "TypeError: unsupported format string")
  end.

(** [v == 'completed']. *)
Definition is_completed (v : pyval) : bool :=
  match v with VStr s => String.eqb s "completed" | _ => false end.

(** Lines 374-385: the attempt at automatic cleanup. *)
Definition automatic_cleanup (w : world) : Py.t body_state unit :=
  Py.try_except
    (if MEMORY_OPTIMIZER_AVAILABLE w then
       let* cleanup_result := Py.call (optimize_memory w) in
       let* status := Py.call (py_getitem cleanup_result "status") in
       if is_completed status then
         let* saved := Py.call (py_getitem cleanup_result "memory_saved_mb") in
         let* mb := Py.call (format_1f saved) in
         append_warning (MemoryCleanupPerformed mb)
       else
         append_warning MemoryCleanupAttempted
     else
       append_warning MemoryOptimizationNotAvailable)
    (Py.except_Exception (fun e =>
       run logger WARNING ("Memory optimization failed: " ++ exn_msg e) then
       append_warning MemoryCleanupFailed)).

(** Lines 361-388: the memory check. *)
Definition memory_check (w : world) : Py.t body_state unit :=
  Py.try_except
    (run Py.call (import_psutil w) then
     let* percent := Py.call (virtual_memory_percent w) in
     if Qgtb percent 90 then
       run append_warning (HighMemoryUsage percent) then
       run (if Qgtb percent 95
            then append_warning CriticalMemoryUsage
            else append_warning TryFewerFiles) then
       automatic_cleanup w
     else
       Py.ret tt)
    (Py.except_ImportError (fun _ => append_warning PsutilNotAvailable)).

(** Lines 391-399: the disk check. *)
Definition disk_check (w : world) : Py.t body_state unit :=
  Py.try_except
    (run Py.call (import_psutil w) then
     let* percent := Py.call (disk_usage_percent w) in
     if Qgtb percent 90 then append_warning (LowDiskSpace percent) else Py.ret tt)
    (Py.orelse
       (Py.except_ImportError (fun _ => Py.ret tt))
       (Py.except_Exception (fun e => append_warning (DiskSpaceCheckFailed (exn_msg e))))).

(** Lines 356-399: what follows the required imports inside the outer
    [try]. *)
Definition resource_checks (w : world) : Py.t body_state unit :=
  run (if negb (PERFORMANCE_MONITOR_AVAILABLE w) || negb (truthy (performance_monitor w))
       then append_warning PerformanceMonitorNotAvailable
       else Py.ret tt) then
  run memory_check w then
  disk_check w.

(** Lines 350-403: the outer [try] with its [except ImportError]. *)
Definition check_application_health_body (w : world) : Py.t body_state unit :=
  Py.try_except
    (run Py.call (import_streamlit w) then
     run Py.call (import_docx w) then
     run Py.call (import_io w) then
     resource_checks w)
    (Py.except_ImportError (fun e =>
       run set_healthy false then
       append_issue (MissingRequiredDependency (exn_msg e)))).

(** The undecorated function, from a given log: the dict it returns, or
    the exception that leaves it. *)
Definition run_body (w : world) (l : log) : log * result health_status :=
  let '(s, r) := check_application_health_body w {| hs := initial_status; hlog := l |} in
  (hlog s, match r with Ret _ => Ret (hs s) | Raise e => Raise e end).

(** Every required module imports. *)
Definition required_imports_ok (w : world) : bool :=
  imported (import_streamlit w)
  && imported (import_docx w)
  && imported (import_io w).

(** The first required import that does not return, if any. *)
Definition first_import_failure (w : world) : option exn :=
  match import_streamlit w, import_docx w, import_io w with
  | Raise e, _, _ => Some e
  | Ret _, Raise e, _ => Some e
  | Ret _, Ret _, Raise e => Some e
  | Ret _, Ret _, Ret _ => None
  end.

(** From state [s] to state [s'] the verdict is untouched and warnings
    were only appended. *)
Definition only_adds_warnings (s s' : body_state) : Prop :=
  healthy (hs s') = healthy (hs s)
  /\ issues (hs s') = issues (hs s)
  /\ exists ws, warnings (hs s') = warnings (hs s) ++ ws.

(** The memory probe gives an answer the body handles: psutil is missing
    (an [ImportError]), or it imports and reports a percentage.  The
    body has no handler for any other exception of the probe. *)
Definition memory_probe_answers (w : world) : bool :=
  match import_psutil w with
  | Ret _ =>
      match virtual_memory_percent w with
      | Ret _ => true
      | Raise e => match exn_cls e with ImportError => true | OtherException => false end
      end
  | Raise e => match exn_cls e with ImportError => true | OtherException => false end
  end.

(** *** The decorators *)

(** State outside the body: the log, the entries of the [st.cache_data]
    store of this function, and two counters that are not in the program:
    [wrapper_calls] counts calls of the decorated function, [body_runs]
    counts executions of the sub-checks. *)
Record entry : Type := { key : option bool; stored_at : Z; value : returned }.

Record state : Type := {
  slog : log;
  entries : list entry;
  wrapper_calls : nat;
  body_runs : nat
}.

Definition empty_state : state :=
  {| slog := []; entries := []; wrapper_calls := 0; body_runs := 0 |}.

(** [def check_application_health() -> Dict[str, Any]] called with the
    positional arguments [args]: the function takes none, so a call with
    an argument ([Some b], a would-be [forceRefresh]) raises [TypeError]
    before the body starts. *)
Definition check_application_health_func (w : world) (args : option bool)
  : Py.t state returned :=
  match args with
  | Some _ =>
      Py.raise (Exn OtherException
        "TypeError: check_application_health() takes 0 positional arguments but 1 was given")
  | None =>
      fun s =>
        let '(l, r) := run_body w (slog s) in
        ({| slog := l; entries := entries s;
            wrapper_calls := wrapper_calls s; body_runs := S (body_runs s) |},
         match r with Ret h => Ret (ReturnedStatus h) | Raise e => Raise e end)
  end.

(** [with_structured_logging(module, operation)]: lines 98-101, the
    identity decorator. *)
Definition with_structured_logging {A} (module_name operation : string) (func : A) : A :=
  func.

(** The fallback [handle_errors] of lines 80-89: its [**kwargs]
    (among them [return_on_error]) are not used; on an exception it logs
    and returns [None]. *)
Definition handle_errors_fallback (operation_name : string) (return_on_error : returned)
    (func : Py.t state returned) : Py.t state returned :=
  Py.try_except func
    (Py.except_Exception (fun e =>
       run Py.modify (fun s =>
             {| slog := slog s ++ [(ERROR, String.append "Error in "
                                      (String.append operation_name
                                         (String.append ": " (exn_msg e))))];
                entries := entries s;
                wrapper_calls := wrapper_calls s;
                body_runs := body_runs s |}) then
       Py.ret ReturnedNone)).

(** Modelled from the spec: [handle_errors] of
    [enhancements.error_handling_enhanced], which is not among the
    sources.  Per the spec (section 7) a failure is handed to the caller
    as data: on an exception the wrapper returns the configured
    [return_on_error]. *)
Definition handle_errors_enhanced (operation_name : string) (return_on_error : returned)
    (func : Py.t state returned) : Py.t state returned :=
  Py.try_except func (Py.except_Exception (fun _ => Py.ret return_on_error)).

(** Lines 68-89: which [handle_errors] is in force. *)
Definition handle_errors (ERROR_HANDLING_AVAILABLE : bool) (operation_name : string)
    (return_on_error : returned) (func : Py.t state returned) : Py.t state returned :=
  if ERROR_HANDLING_AVAILABLE
  then handle_errors_enhanced operation_name return_on_error func
  else handle_errors_fallback operation_name return_on_error func.

(** [return_on_error={"healthy": False, "issues": ["Health check failed"]}]. *)
Definition return_on_error : returned := ReturnedOnError false [HealthCheckFailed].

Definition same_key (a b : option bool) : bool :=
  match a, b with
  | None, None => true
  | Some x, Some y => Bool.eqb x y
  | _, _ => false
  end.

(** The entry stored for [args] that has not expired at time [now]. *)
Fixpoint lookup_fresh (ttl now : Z) (args : option bool) (es : list entry)
  : option returned :=
  match es with
  | [] => None
  | e :: es' =>
      if same_key (key e) args && (now <? stored_at e + ttl)%Z
      then Some (value e)
      else lookup_fresh ttl now args es'
  end.

Definition store (now : Z) (args : option bool) (v : returned) : Py.t state unit :=
  Py.modify (fun s =>
    {| slog := slog s;
       entries := {| key := args; stored_at := now; value := v |}
                  :: filter (fun e => negb (same_key (key e) args)) (entries s);
       wrapper_calls := wrapper_calls s;
       body_runs := body_runs s |}).

(** Modelled from the spec: [st.cache_data(ttl=...)] of Streamlit, which
    is not among the sources.  Per the spec (sections 3 and 4.6) a cached
    value is returned while it is younger than [ttl] and recomputed
    otherwise; entries are keyed by the call's arguments, and an
    exception leaving the wrapped function stores nothing. *)
Definition cache_data (ttl : Z) (func : option bool -> Py.t state returned)
    (now : Z) (args : option bool) : Py.t state returned :=
  let* s := Py.get in
  match lookup_fresh ttl now args (entries s) with
  | Some v => Py.ret v
  | None =>
      let* v := func args in
      run store now args v then
      Py.ret v
  end.

(** Lines 339-342: the decorated [check_application_health], called at
    time [now] (seconds) with [args]. *)
Definition check_application_health (ERROR_HANDLING_AVAILABLE : bool) (w : world)
    (now : Z) (args : option bool) : Py.t state returned :=
  run Py.modify (fun s =>
        {| slog := slog s; entries := entries s;
           wrapper_calls := S (wrapper_calls s); body_runs := body_runs s |}) then
  cache_data 300
    (fun a =>
       handle_errors ERROR_HANDLING_AVAILABLE "application_health_check" return_on_error
         (with_structured_logging "application" "health_check"
            (check_application_health_func w a)))
    now args.

(** What a call without arguments that finds nothing cached hands back
    when the body runs in world [w] from log [l]: the body's dict, or what
    the [handle_errors] in force makes of an exception. *)
Definition fresh_snapshot (ERROR_HANDLING_AVAILABLE : bool) (w : world) (l : log)
  : returned :=
  match (run_body w l).2 with
  | Ret h => ReturnedStatus h
  | Raise _ => if ERROR_HANDLING_AVAILABLE then return_on_error else ReturnedNone
  end.

(** [r['healthy']], [r['issues']], [r['warnings']] on a returned value. *)
Definition get_healthy (r : returned) : result bool :=
  match r with
  | ReturnedNone => Raise (Exn OtherException "TypeError: 'NoneType' object is not subscriptable")
  | ReturnedStatus h => Ret (healthy h)
  | ReturnedOnError b _ => Ret b
  end.

Definition get_issues (r : returned) : result (list issue) :=
  match r with
  | ReturnedNone => Raise (Exn OtherException "TypeError: 'NoneType' object is not subscriptable")
  | ReturnedStatus h => Ret (issues h)
  | ReturnedOnError _ i => Ret i
  end.

(** The value has the shape the function declares: a dict with
    ['healthy'], ['issues'] and ['warnings']. *)
Definition has_snapshot_shape (r : returned) : bool :=
  match r with ReturnedStatus _ => true | _ => false end.

End Health.

(** ** The requirements tab ([render_requirements_tab], lines 407-421) *)

Module RequirementsTab.

Inductive ui_event : Type :=
| st_title (text : string)
| st_write (text : string)
| st_error (text : string).

(** [requirements_manager] is the session field of that name ([None]:
    the key is absent). *)
Record state : Type := {
  requirements_manager : option Requirements.RequirementsManager;
  ui : list ui_event;
  tab_log : log
}.

Inductive outcome : Type :=
| ReturnedEarly
    (** the [return] of line 418 *)
| Continues
    (** control reaches line 421 and the forms are rendered *)
| ErrorShown
    (** the [except Exception] of line 489 *).

Definition emit (e : ui_event) : Py.t state unit :=
  Py.modify (fun s => {| requirements_manager := requirements_manager s;
                         ui := ui s ++ [e];
                         tab_log := tab_log s |}).

Local Open Scope py_scope.

(** [resolved] is what the call [get_cached_requirements_manager()] of
    line 415 gives. *)
Definition render_requirements_tab
    (resolved : result (option Requirements.RequirementsManager))
  : Py.t state outcome :=
  Py.try_except
    (run emit (st_title "Requirements Manager") then
     run emit (st_write
       "Create and manage job requirements to customize your resume for specific positions.") then
     let* s := Py.get in
     match requirements_manager s with
     | Some _ =>
         run Py.modify (fun s =>
               {| requirements_manager := requirements_manager s; ui := ui s;
                  tab_log := tab_log s ++ [(INFO, "Requirements tab rendered successfully")] |}) then
         Py.ret Continues
     | None =>
         let* manager := Py.call resolved in
         match manager with
         | None =>
             run emit (st_error
               "Requirements manager not available. Please check that all dependencies are installed.") then
             Py.ret ReturnedEarly
         | Some m =>
             run Py.modify (fun s =>
                   {| requirements_manager := Some m; ui := ui s;
                      tab_log := tab_log s ++ [(INFO, "Requirements tab rendered successfully")] |}) then
             Py.ret Continues
         end
     end)
    (Py.except_Exception (fun e =>
       run emit (st_error ("An error occurred in the Requirements tab: " ++ exn_msg e)) then
       Py.ret ErrorShown)).

Definition fresh_session : state :=
  {| requirements_manager := None; ui := []; tab_log := [] |}.

End RequirementsTab.

(** ** [main]: the health check at entry and the async status *)

Module Main.

Inductive ui_event : Type :=
| st_error (text : string)
| st_error_issue (i : Health.issue)
| st_success (text : string)
| st_warning (text : string)
| st_toast (text : string)
| st_metric (label value : string).

(** Module-level facts fixed when [app.py] is loaded. *)
Record config : Type := {
  ERROR_HANDLING_AVAILABLE : bool;
  ASYNC_PROCESSING_AVAILABLE : bool;
  (** [initialize_async_services] of the async module, when it imported *)
  async_integration_initialize : result pyval
}.

Record app : Type := {
  session_state : gmap string pyval;
  ui : list ui_event;
  health : Health.state
}.

Definition emit (e : ui_event) : Py.t app unit :=
  Py.modify (fun a => {| session_state := session_state a;
                         ui := ui a ++ [e];
                         health := health a |}).

(** [st.session_state[key] = v]. *)
Definition set_session (key : string) (v : pyval) : Py.t app unit :=
  Py.modify (fun a => {| session_state := <[key := v]> (session_state a);
                         ui := ui a;
                         health := health a |}).

(** [st.session_state.get(key, default)]. *)
Definition session_get (a : app) (key : string) (default : pyval) : pyval :=
  match session_state a !! key with
  | Some v => v
  | None => default
  end.

(** A computation on the health check's state, run inside [main]. *)
Definition in_health {A} (m : Py.t Health.state A) : Py.t app A :=
  fun a =>
    let '(h, r) := m (health a) in
    ({| session_state := session_state a; ui := ui a; health := h |}, r).

Inductive entry : Type :=
| Halted
    (** the [return] of line 534: the main flow is not entered *)
| Entered (health_status : Health.returned)
    (** control passes line 534 with this [health_status] *).

(** The constant of line 528. *)
Definition fast_mode_status : Health.returned :=
  Health.ReturnedStatus
    {| Health.healthy := true; Health.issues := []; Health.warnings := [] |}.

Local Open Scope py_scope.

(** [for issue in issues: st.error(issue)]. *)
Fixpoint show_issues (l : list Health.issue) : Py.t app unit :=
  match l with
  | [] => Py.ret tt
  | i :: l' => run emit (st_error_issue i) then show_issues l'
  end.

(** Lines 519-534 of [main], run at time [now] against the world [w] of
    the health check.  (Lines 498-517 before them configure the page,
    start a timer and preload modules; they read and write neither the
    session state nor the health check.) *)
Definition main_health_check (c : config) (w : Health.world) (now : Z) : Py.t app entry :=
  let* a := Py.get in
  run (match session_state a !! "async_initialized" with
       | Some _ => Py.ret tt
       | None => set_session "async_initialized" VNone
       end) then
  let* a := Py.get in
  let* health_status :=
    (if truthy (session_get a "debug_mode" (VBool false))
     then in_health (Health.check_application_health (ERROR_HANDLING_AVAILABLE c) w now None)
     else Py.ret fast_mode_status) in
  let* is_healthy := Py.call (Health.get_healthy health_status) in
  if negb is_healthy then
    run emit (st_error "Application Health Check Failed") then
    let* l := Py.call (Health.get_issues health_status) in
    run show_issues l then
    Py.ret Halted
  else
    Py.ret (Entered health_status).

(** Lines 107-120: the function bound to [initialize_async_services]. *)
Definition initialize_async_services (c : config) : result pyval :=
  if ASYNC_PROCESSING_AVAILABLE c
  then async_integration_initialize c
  else Ret (VBool true).

(** Lines 619-622: the status indicator in the header. *)
Definition header_status : Py.t app unit :=
  let* a := Py.get in
  if truthy (session_get a "async_initialized" VNone)
  then emit (st_success "High Performance")
  else emit (st_warning "Standard Mode").

(** Lines 932-935: the indicator of the bulk tab. *)
Definition bulk_status : Py.t app unit :=
  let* a := Py.get in
  if truthy (session_get a "async_initialized" VNone)
  then emit (st_success "High Performance Mode Active")
  else emit (st_warning "Standard Mode Only").

Inductive control : Type :=
| Continue
| Rerun
    (** [st.rerun()]: the script stops and starts again *).

(** Lines 1052-1099: the performance section of the settings tab;
    [retry_clicked] says whether the button "Retry Async Init" was
    pressed.  (The "Run Performance Test" button of the first branch only
    draws fixed numbers and is left out.) *)
Definition performance_settings (c : config) (retry_clicked : bool) : Py.t app control :=
  let* a := Py.get in
  if truthy (session_get a "async_initialized" VNone) then
    run emit (st_success
      "Async processing enabled - Experience up to 6x faster processing!") then
    run emit (st_metric "Speed Boost" "6x faster") then
    run emit (st_metric "Status" "Active") then
    Py.ret Continue
  else
    run emit (st_error "Async processing disabled - Performance may be slower") then
    run emit (st_warning "Running in standard mode. Some operations may take longer.") then
    if retry_clicked then
      let* success := Py.call (initialize_async_services c) in
      run set_session "async_initialized" success then
      if truthy success then
        run emit (st_toast "Async services initialized successfully!") then
        Py.ret Rerun
      else
        run emit (st_toast "Failed to initialize async services") then
        Py.ret Continue
    else
      Py.ret Continue.

(** The session after line 521: ['async_initialized'] is present. *)
Definition marked (s : gmap string pyval) : gmap string pyval :=
  match s !! "async_initialized" with
  | Some _ => s
  | None => <["async_initialized" := VNone]> s
  end.

Definition new_app (s : gmap string pyval) : app :=
  {| session_state := s; ui := []; health := Health.empty_state |}.

End Main.

(** ** Bulk processing progress (lines 962-977 of [main]) *)

Module Bulk.

Record uploaded_file : Type := { name : string }.

Inductive ui_event : Type :=
| progress (value : Q)
    (** [st.progress(v)] and [overall_progress.progress(v)] *)
| status_text (text : string)
| sleep (seconds : Q).

(** [(i + 1) / len(uploaded_files)]: true division, read over the
    rationals. *)
Definition fraction (i n : nat) : Q :=
  inject_Z (Z.of_nat (i + 1)) / inject_Z (Z.of_nat n).

(** [for i, file in enumerate(uploaded_files): ...], from index [i] on;
    [n] is [len(uploaded_files)]. *)
Fixpoint process_files (n i : nat) (files : list uploaded_file) : list ui_event :=
  match files with
  | [] => []
  | file :: rest =>
      progress (fraction i n)
      :: status_text ("Processing " ++ name file ++ "... (" ++ pretty (i + 1)
                      ++ "/" ++ pretty n ++ ")")
      :: sleep (3 # 10)
      :: process_files n (S i) rest
  end.

(** What pressing "Start Bulk Processing" draws, from the creation of the
    bar to the final update. *)
Definition bulk_processing (uploaded_files : list uploaded_file) : list ui_event :=
  progress 0
  :: process_files (length uploaded_files) 0 uploaded_files
  ++ [progress 1; status_text "All files processed successfully!"].

(** The successive values of the progress bar. *)
Fixpoint progress_values (events : list ui_event) : list Q :=
  match events with
  | [] => []
  | progress v :: rest => v :: progress_values rest
  | _ :: rest => progress_values rest
  end.

(** Each value is at most the one reported after it. *)
Definition nondecreasing (l : list Q) : Prop :=
  forall (i : nat) (x y : Q), l !! i = Some x -> l !! S i = Some y -> (x <= y)%Q.

(** The same values as Python computes them, in binary64: the operands
    are converted to floats and divided with IEEE rounding. *)
Definition float_of_nat (n : nat) : PrimFloat.float :=
  PrimFloat.of_uint63 (Uint63.of_Z (Z.of_nat n)).

Definition float_fraction (i n : nat) : PrimFloat.float :=
  PrimFloat.div (float_of_nat (i + 1)) (float_of_nat n).

Definition float_values (n : nat) : list PrimFloat.float :=
  float_of_nat 0 :: map (fun i => float_fraction i n) (seq 0 n) ++ [float_of_nat 1].

Fixpoint float_nondecreasing (l : list PrimFloat.float) : bool :=
  match l with
  | x :: rest =>
      match rest with
      | y :: _ => PrimFloat.leb x y && float_nondecreasing rest
      | [] => true
      end
  | [] => true
  end.

End Bulk.

(** ** Concrete runs used below *)

Module Scenario.

Definition missing (module_name : string) : exn :=
  Exn ImportError ("No module named '" ++ module_name ++ "'").

(** The database is reachable up to the connection, which fails; the
    requirements manager is installed. *)
Definition connection_fails : Requirements.world :=
  {| Requirements.import_database := Ret tt;
     Requirements.setup_database_environment := Ret (VDict [("success", VBool true)]);
     Requirements.initialize_database := Ret (VBool false);
     Requirements.initialize_database_schema := Ret (VBool true);
     Requirements.import_requirements_integration := Ret tt;
     Requirements.construct := fun _ => Ret tt |}.

(** The environment setup reports failure and [requirements_integration]
    is not installed. *)
Definition setup_fails_no_manager : Requirements.world :=
  {| Requirements.import_database := Ret tt;
     Requirements.setup_database_environment := Ret (VDict [("success", VBool false)]);
     Requirements.initialize_database := Ret (VBool true);
     Requirements.initialize_database_schema := Ret (VBool true);
     Requirements.import_requirements_integration := Raise (missing "requirements_integration");
     Requirements.construct := fun _ => Ret tt |}.

(** Neither [database] nor [requirements_integration] is installed. *)
Definition nothing_installed : Requirements.world :=
  {| Requirements.import_database := Raise (missing "database");
     Requirements.setup_database_environment := Ret (VDict [("success", VBool true)]);
     Requirements.initialize_database := Ret (VBool true);
     Requirements.initialize_database_schema := Ret (VBool true);
     Requirements.import_requirements_integration := Raise (missing "requirements_integration");
     Requirements.construct := fun _ => Ret tt |}.

(** Every module imports; memory is at 97 %, the disk at 93 %; the
    memory optimizer is the dummy of lines 300-303. *)
Definition under_pressure : Health.world :=
  {| Health.import_streamlit := Ret tt;
     Health.import_docx := Ret tt;
     Health.import_io := Ret tt;
     Health.PERFORMANCE_MONITOR_AVAILABLE := true;
     Health.performance_monitor := VObj 0;
     Health.import_psutil := Ret tt;
     Health.virtual_memory_percent := Ret (97 # 1);
     Health.MEMORY_OPTIMIZER_AVAILABLE := false;
     Health.optimize_memory :=
       Ret (VDict [("status", VStr "unavailable"); ("memory_saved_mb", VInt 0)]);
     Health.disk_usage_percent := Ret (93 # 1) |}.

(** [docx] is not installed; everything else is quiet. *)
Definition docx_missing : Health.world :=
  {| Health.import_streamlit := Ret tt;
     Health.import_docx := Raise (missing "docx");
     Health.import_io := Ret tt;
     Health.PERFORMANCE_MONITOR_AVAILABLE := true;
     Health.performance_monitor := VObj 0;
     Health.import_psutil := Ret tt;
     Health.virtual_memory_percent := Ret (40 # 1);
     Health.MEMORY_OPTIMIZER_AVAILABLE := false;
     Health.optimize_memory :=
       Ret (VDict [("status", VStr "unavailable"); ("memory_saved_mb", VInt 0)]);
     Health.disk_usage_percent := Ret (50 # 1) |}.

(** Every module imports, but [psutil.virtual_memory()] raises an
    [OSError]. *)
Definition memory_probe_raises : Health.world :=
  {| Health.import_streamlit := Ret tt;
     Health.import_docx := Ret tt;
     Health.import_io := Ret tt;
     Health.PERFORMANCE_MONITOR_AVAILABLE := true;
     Health.performance_monitor := VObj 0;
     Health.import_psutil := Ret tt;
     Health.virtual_memory_percent :=
       Raise (Exn OtherException "OSError: [Errno 13] Permission denied: '/proc/meminfo'");
     Health.MEMORY_OPTIMIZER_AVAILABLE := false;
     Health.optimize_memory :=
       Ret (VDict [("status", VStr "unavailable"); ("memory_saved_mb", VInt 0)]);
     Health.disk_usage_percent := Ret (50 # 1) |}.

(** Every module imports and nothing is under pressure. *)
Definition all_quiet : Health.world :=
  {| Health.import_streamlit := Ret tt;
     Health.import_docx := Ret tt;
     Health.import_io := Ret tt;
     Health.PERFORMANCE_MONITOR_AVAILABLE := true;
     Health.performance_monitor := VObj 0;
     Health.import_psutil := Ret tt;
     Health.virtual_memory_percent := Ret (40 # 1);
     Health.MEMORY_OPTIMIZER_AVAILABLE := false;
     Health.optimize_memory :=
       Ret (VDict [("status", VStr "unavailable"); ("memory_saved_mb", VInt 0)]);
     Health.disk_usage_percent := Ret (50 # 1) |}.

(** The optional modules [enhancements.error_handling_enhanced] and
    [infrastructure.async_processing.async_integration] are not
    installed: [app.py] runs on its fallbacks. *)
Definition fallbacks_only : Main.config :=
  {| Main.ERROR_HANDLING_AVAILABLE := false;
     Main.ASYNC_PROCESSING_AVAILABLE := false;
     Main.async_integration_initialize :=
       Raise (missing "infrastructure.async_processing.async_integration") |}.

(** A session in which the user switched debug mode on. *)
Definition debug_session : Main.app :=
  Main.new_app {[ "debug_mode" := VBool true ]}.

(** A session at the start of a run: line 521 has marked async as not
    initialised yet. *)
Definition async_not_initialized : Main.app :=
  Main.new_app {[ "async_initialized" := VNone ]}.

(** Three uploaded resumes. *)
Definition three_files : list Bulk.uploaded_file :=
  [ {| Bulk.name := "a.docx" |}; {| Bulk.name := "b.docx" |}; {| Bulk.name := "c.docx" |} ].

End Scenario.

(** ** Further notions for the health check *)

Module HealthProbe.

Import Health.

(** The warning of line 358, if the line appends one. *)
Definition monitor_warning (w : world) : list warning :=
  if negb (PERFORMANCE_MONITOR_AVAILABLE w) || negb (truthy (performance_monitor w))
  then [PerformanceMonitorNotAvailable]
  else [].

(** The world [w] with another memory optimizer. *)
Definition with_optimizer (w : world) (available : bool) (outcome : result pyval)
  : world :=
  {| import_streamlit := import_streamlit w;
     import_docx := import_docx w;
     import_io := import_io w;
     PERFORMANCE_MONITOR_AVAILABLE := PERFORMANCE_MONITOR_AVAILABLE w;
     performance_monitor := performance_monitor w;
     import_psutil := import_psutil w;
     virtual_memory_percent := virtual_memory_percent w;
     MEMORY_OPTIMIZER_AVAILABLE := available;
     optimize_memory := outcome;
     disk_usage_percent := disk_usage_percent w |}.

(** The world [w] with another disk probe. *)
Definition with_disk (w : world) (outcome : result Q) : world :=
  {| import_streamlit := import_streamlit w;
     import_docx := import_docx w;
     import_io := import_io w;
     PERFORMANCE_MONITOR_AVAILABLE := PERFORMANCE_MONITOR_AVAILABLE w;
     performance_monitor := performance_monitor w;
     import_psutil := import_psutil w;
     virtual_memory_percent := virtual_memory_percent w;
     MEMORY_OPTIMIZER_AVAILABLE := MEMORY_OPTIMIZER_AVAILABLE w;
     optimize_memory := optimize_memory w;
     disk_usage_percent := outcome |}.

(** Memory at 97 %, an optimizer that is installed and raises. *)
Definition optimizer_crashes : world :=
  with_optimizer Scenario.under_pressure true
    (Raise (Exn OtherException "RuntimeError: gc failed")).

(** [psutil] is not installed. *)
Definition no_psutil : world :=
  {| import_streamlit := Ret tt;
     import_docx := Ret tt;
     import_io := Ret tt;
     PERFORMANCE_MONITOR_AVAILABLE := false;
     performance_monitor := VNone;
     import_psutil := Raise (Scenario.missing "psutil");
     virtual_memory_percent := Ret (40 # 1);
     MEMORY_OPTIMIZER_AVAILABLE := false;
     optimize_memory := Ret VNone;
     disk_usage_percent := Ret (50 # 1) |}.

(** The disk probe raises, everything else is quiet. *)
Definition disk_probe_raises : world :=
  with_disk Scenario.all_quiet
    (Raise (Exn OtherException "FileNotFoundError: [Errno 2] No such file or directory: '/'")).

End HealthProbe.

(** ** The other lazy getter ([get_secure_ui_components], lines 171-177) *)

Module Lazy.

(** [_secure_ui_components] is the module global ([None]: Python's
    [None]); the counters record how often the [import] statement and the
    imported factory have been executed. *)
Record globals : Type := {
  _secure_ui_components : option ref;
  secure_imports : nat;
  factory_calls : nat
}.

(** How [from ui.secure_components import get_secure_ui_components] and
    the call of the imported function end, by the number of earlier
    executions; the factory returns an object or [None]. *)
Record world : Type := {
  import_secure_components : nat -> result unit;
  secure_factory : nat -> result (option ref)
}.

Local Open Scope py_scope.

Definition get_secure_ui_components (w : world) : Py.t globals (option ref) :=
  let* g := Py.get in
  match _secure_ui_components g with
  | Some r => Py.ret (Some r)
  | None =>
      run Py.modify (fun g => {| _secure_ui_components := _secure_ui_components g;
                                 secure_imports := S (secure_imports g);
                                 factory_calls := factory_calls g |}) then
      run Py.call (import_secure_components w (secure_imports g)) then
      run Py.modify (fun g => {| _secure_ui_components := _secure_ui_components g;
                                 secure_imports := secure_imports g;
                                 factory_calls := S (factory_calls g) |}) then
      let* v := Py.call (secure_factory w (factory_calls g)) in
      run Py.modify (fun g => {| _secure_ui_components := v;
                                 secure_imports := secure_imports g;
                                 factory_calls := factory_calls g |}) then
      let* g' := Py.get in
      Py.ret (_secure_ui_components g')
  end.

(** [n] successive calls of the getter. *)
Fixpoint calls (w : world) (n : nat) (g : globals)
  : globals * list (result (option ref)) :=
  match n with
  | O => (g, [])
  | S n' =>
      let '(g1, r) := get_secure_ui_components w g in
      let '(g2, rs) := calls w n' g1 in
      (g2, r :: rs)
  end.

(** A factory that answers [None] each time. *)
Definition factory_gives_None : world :=
  {| import_secure_components := fun _ => Ret tt;
     secure_factory := fun _ => Ret None |}.

(** A factory that builds the object at address 7. *)
Definition factory_gives_object : world :=
  {| import_secure_components := fun _ => Ret tt;
     secure_factory := fun _ => Ret (Some 7) |}.

Definition fresh_module : globals :=
  {| _secure_ui_components := None; secure_imports := 0; factory_calls := 0 |}.

End Lazy.

(** A world for [get_ui_components] in which the constructor raises. *)
Definition constructor_raises : Singleton.world :=
  {| Singleton.import_UIComponents := fun _ => Ret tt;
     Singleton.UIComponents_init := fun _ => Raise (Exn OtherException "boom") |}.

(** ** What [main] puts into the session on every run *)

Module Rerun.

(** Lines 592-597: [initialize_session_state()], then ['resume_inputs']
    and ['user_id'] unless present; [fresh_uuid] is what
    [str(uuid.uuid4())] would give in this run. *)
Definition session_setup (fresh_uuid : string) (s : gmap string pyval)
  : gmap string pyval :=
  let s1 := Session.initialize_session_state s in
  let s2 := match s1 !! "resume_inputs" with
            | Some _ => s1
            | None => <["resume_inputs" := VDict []]> s1
            end in
  match s2 !! "user_id" with
  | Some _ => s2
  | None => <["user_id" := VStr fresh_uuid]> s2
  end.

(** What [hasattr(m, 'process_single_resume_async')] sees of a resume
    manager. *)
Record manager : Type := { has_process_single_resume_async : bool }.

(** A [ResumeTabHandler] or [BulkProcessor] object: its identity and its
    [resume_manager] attribute ([None]: Python's [None]). *)
Record handler : Type := { handler_id : ref; resume_manager : option manager }.

(** The two session fields of lines 539-558, the next fresh object
    identity and the log. *)
Record state : Type := {
  resume_tab_handler : option handler;
  bulk_processor : option handler;
  next_id : ref;
  rlog : log
}.

Record world : Type := {
  (** [from resume_customizer.processors.resume_processor import
      get_resume_manager] *)
  import_resume_processor : result unit;
  (** [get_resume_manager("v2.2")] *)
  get_resume_manager : result manager
}.

Local Open Scope py_scope.

(** [hasattr(handler.resume_manager, 'process_single_resume_async')]. *)
Definition has_async (h : handler) : bool :=
  match resume_manager h with
  | Some m => has_process_single_resume_async m
  | None => false
  end.

(** Lines 538-542. *)
Definition force_refresh (s : state) : bool :=
  match resume_tab_handler s with
  | Some h => negb (has_async h)
  | None => false
  end.

(** The constructor call [ResumeTabHandler(resume_manager=m)] (or
    [BulkProcessor(...)]): a new object. *)
Definition construct (m : option manager) : Py.t state handler :=
  let* s := Py.get in
  run Py.modify (fun s => {| resume_tab_handler := resume_tab_handler s;
                             bulk_processor := bulk_processor s;
                             next_id := S (next_id s);
                             rlog := rlog s |}) then
  Py.ret {| handler_id := next_id s; resume_manager := m |}.

(** The [try]/[except ImportError] of lines 545-550 and 553-558; [what]
    names the object in the log message. *)
Definition build (w : world) (what : string) : Py.t state handler :=
  Py.try_except
    (run Py.call (import_resume_processor w) then
     let* m := Py.call (get_resume_manager w) in
     construct (Some m))
    (Py.except_ImportError (fun e =>
       run Py.modify (fun s =>
             {| resume_tab_handler := resume_tab_handler s;
                bulk_processor := bulk_processor s;
                next_id := next_id s;
                rlog := rlog s ++ [(WARNING, String.append "Could not initialize "
                                              (String.append what
                                                 (String.append ": " (exn_msg e))))] |}) then
       construct None)).

(** Lines 536-558. *)
Definition ensure_handlers (w : world) : Py.t state unit :=
  let* s := Py.get in
  let refresh := force_refresh s in
  run (match resume_tab_handler s with
       | Some _ => if refresh then
                     let* h := build w "resume tab handler" in
                     Py.modify (fun s => {| resume_tab_handler := Some h;
                                            bulk_processor := bulk_processor s;
                                            next_id := next_id s;
                                            rlog := rlog s |})
                   else Py.ret tt
       | None =>
           let* h := build w "resume tab handler" in
           Py.modify (fun s => {| resume_tab_handler := Some h;
                                  bulk_processor := bulk_processor s;
                                  next_id := next_id s;
                                  rlog := rlog s |})
       end) then
  let* s := Py.get in
  match bulk_processor s with
  | Some _ => if refresh then
                let* b := build w "bulk processor" in
                Py.modify (fun s => {| resume_tab_handler := resume_tab_handler s;
                                       bulk_processor := Some b;
                                       next_id := next_id s;
                                       rlog := rlog s |})
              else Py.ret tt
  | None =>
      let* b := build w "bulk processor" in
      Py.modify (fun s => {| resume_tab_handler := resume_tab_handler s;
                             bulk_processor := Some b;
                             next_id := next_id s;
                             rlog := rlog s |})
  end.

(** [resume_processor] is not installed. *)
Definition no_resume_processor : world :=
  {| import_resume_processor :=
       Raise (Scenario.missing "resume_customizer.processors.resume_processor");
     get_resume_manager := Ret {| has_process_single_resume_async := true |} |}.

(** A session of an earlier run without [resume_processor]: both objects
    were built without a manager. *)
Definition fallback_session : state :=
  {| resume_tab_handler := Some {| handler_id := 0; resume_manager := None |};
     bulk_processor := Some {| handler_id := 1; resume_manager := None |};
     next_id := 2;
     rlog := [] |}.

(** A session whose handlers carry a manager with the async method. *)
Definition settled_session : state :=
  {| resume_tab_handler :=
       Some {| handler_id := 0;
               resume_manager := Some {| has_process_single_resume_async := true |} |};
     bulk_processor :=
       Some {| handler_id := 1;
               resume_manager := Some {| has_process_single_resume_async := true |} |};
     next_id := 2;
     rlog := [] |}.

End Rerun.

(** ** The tabs of [main] (lines 627-673) *)

Module Tabs.

(** [l.insert(i, x)] for [0 <= i]. *)
Definition py_insert {A} (i : nat) (x : A) (l : list A) : list A :=
  take i l ++ x :: drop i l.

(** [x in l] for a list of strings. *)
Definition py_in (x : string) (l : list string) : bool :=
  existsb (String.eqb x) l.

(** [st.session_state.get(key)]. *)
Definition session_get (s : gmap string pyval) (key : string) : pyval :=
  match s !! key with
  | Some v => v
  | None => VNone
  end.

(** Lines 628-636. *)
Definition tab_labels (s : gmap string pyval) : list string :=
  let labels := [ "Resume Customizer"; "Bulk Processor"; "Requirements";
                  "Know About The Application"; "Settings" ] in
  if truthy (session_get s "show_preview_all_tab")
     && truthy (session_get s "all_resume_previews")
  then py_insert 1 "Preview ALL" labels
  else labels.

(** The indices into [tabs] that lines 661-673 bind to the tab variables
    ([tab_preview_all] is bound only in one branch). *)
Record layout : Type := {
  tab_customizer : nat;
  tab_preview_all : option nat;
  tab_bulk : nat;
  tab_requirements : nat;
  tab_application_guide : nat;
  tab_settings : nat
}.

(** Lines 661-673; [labels] is the list given to [st.tabs]. *)
Definition assign_tabs (labels : list string) : layout :=
  let tab_idx := 0 in
  let customizer := tab_idx in
  let tab_idx := tab_idx + 1 in
  let '(preview, tab_idx) :=
    if py_in "Preview ALL" labels then (Some tab_idx, tab_idx + 1) else (None, tab_idx) in
  let bulk := tab_idx in
  let tab_idx := tab_idx + 1 in
  let requirements := tab_idx in
  let tab_idx := tab_idx + 1 in
  let guide := tab_idx in
  let tab_idx := tab_idx + 1 in
  {| tab_customizer := customizer;
     tab_preview_all := preview;
     tab_bulk := bulk;
     tab_requirements := requirements;
     tab_application_guide := guide;
     tab_settings := tab_idx |}.

End Tabs.

(** ** The resume customizer tab: forms and asynchronous validation *)

Module Customizer.

(** An entry of [all_files]: the file name and the file object. *)
Definition entry : Type := string * Bulk.uploaded_file.

Inductive event : Type :=
| st_info (text : string)
| st_warning (text : string)
| st_markdown (text : string)
| st_text (text : string)
| st_tabs (labels : list string)
| st_toast (text : string)
| render_tab (file : entry)
    (** [tab_handler.render_tab(file_obj)] *)
| render_tabs_progressive (tab_data : list entry) (max_initial_tabs : nat)
    (** [progressive_loader.render_tabs_progressive(tab_data, ...)]; each
        item of [tab_data] carries the label and the file to render *)
| progress (value : Q)
| progress_empty
| status_text (text : string)
| status_empty
| file_status (file_name : string) (text : string)
    (** [file_statuses[file_name].text(text)] *)
| sleep (seconds : Q)
| toast_validation_failed (message : pyval)
    (** the toast f"Validation failed: {validation_result['message']}" *).

(** [for i, (file_name, file_obj) in enumerate(files): with tabs[i]: ...]
    of lines 832-835 and 842-846. *)
Definition render_each (files : list entry) : list event :=
  flat_map (fun f => [st_markdown f.1; render_tab f]) files.

(** Lines 812-853: the expander "Resume Input Forms". *)
Definition render_forms (PROGRESSIVE_LOADER_AVAILABLE : bool) (all_files : list entry)
  : list event :=
  if Nat.ltb 5 (length all_files) then
    st_info ("Processing " ++ pretty (length all_files)
             ++ " files with progressive loading...")
    :: (if PROGRESSIVE_LOADER_AVAILABLE then
          [render_tabs_progressive all_files 3]
        else
          st_warning "Progressive loading not available - using standard tabs"
          :: st_tabs (map fst (take 5 all_files))
          :: render_each (take 5 all_files))
  else if Nat.ltb 1 (length all_files) then
    st_tabs (map fst all_files)
    :: render_each all_files
    ++ [st_toast (pretty (length all_files) ++ " resume tabs loaded!")]
  else
    render_each all_files.

(** The files handed to [tab_handler.render_tab] by this code itself. *)
Fixpoint rendered (events : list event) : list entry :=
  match events with
  | [] => []
  | render_tab f :: rest => f :: rendered rest
  | _ :: rest => rendered rest
  end.

(** The simulated progress of lines 790-795, from index [i] on. *)
Fixpoint mark_valid (n i : nat) (files : list entry) : list event :=
  match files with
  | [] => []
  | f :: rest =>
      progress (Bulk.fraction i n)
      :: status_text ("Validating " ++ f.1 ++ "... (" ++ pretty (i + 1) ++ "/"
                      ++ pretty n ++ ")")
      :: file_status f.1 "Valid"
      :: sleep (2 # 10)
      :: mark_valid n (S i) rest
  end.

Definition emit (e : list event) : Py.t (list event) unit :=
  Py.modify (fun t => t ++ e).

Local Open Scope py_scope.

(** Lines 767-804.  [async_initialized] is
    [st.session_state.get('async_initialized')], [clicked] says whether
    the button "Validate All Files (Async)" was pressed, and [validated]
    is how [validate_files_async([f[1] for f in all_files])] ends. *)
Definition validate_all (async_initialized : pyval) (clicked : bool)
    (validated : result pyval) (all_files : list entry) : Py.t (list event) unit :=
  if Nat.ltb 1 (length all_files) && truthy async_initialized then
    if clicked then
      run emit (st_markdown "File Validation Progress"
                :: progress 0
                :: map (fun f : entry => st_text f.1) all_files) then
      let* validation_result := Py.call validated in
      run emit (mark_valid (length all_files) 0 all_files) then
      run emit [progress_empty; status_empty] then
      let* success := Py.call (py_getitem validation_result "success") in
      if truthy success then
        emit [st_toast "All files validated successfully!"]
      else
        let* message := Py.call (py_getitem validation_result "message") in
        emit [toast_validation_failed message]
    else Py.ret tt
  else Py.ret tt.

(** Lines 128-129: the fallback [validate_files_async]. *)
Definition validate_files_async_fallback : result pyval :=
  Ret (VDict [("success", VBool true); ("message", VStr "Fast validation enabled")]).

(** The file names marked valid on the page. *)
Fixpoint marked_valid (events : list event) : list string :=
  match events with
  | [] => []
  | file_status name "Valid" :: rest => name :: marked_valid rest
  | _ :: rest => marked_valid rest
  end.

(** Seven uploaded files. *)
Definition seven_files : list entry :=
  map (fun n => (n, {| Bulk.name := n |}))
      ["1.docx"; "2.docx"; "3.docx"; "4.docx"; "5.docx"; "6.docx"; "7.docx"].

(** Two uploaded files, and a validation that reports a failure. *)
Definition two_files : list entry :=
  [ ("a.docx", {| Bulk.name := "a.docx" |}); ("b.docx", {| Bulk.name := "b.docx" |}) ].

Definition validation_rejects : result pyval :=
  Ret (VDict [("success", VBool false); ("message", VStr "b.docx is not a DOCX file")]).

End Customizer.

(** ** The settings tab: memory cleanup, health dashboard, performance data *)

(** The float that the literal [0.8] of line 1222 denotes. *)
Module Literal.
Import PrimFloat.
Definition zero_point_eight : float := 0x1.999999999999ap-1%float.
End Literal.

Module Settings.

Inductive event : Type :=
| st_markdown (text : string)
| st_text (text : string)
| st_info (text : string)
| st_success (text : string)
| st_warning (text : string)
| st_error (text : string)
| st_error_issue (i : Health.issue)
    (** [st.error(f"• {issue}")] *)
| st_warnings (ws : list Health.warning)
    (** [st.warning] of the joined warnings, line 1243 *)
| st_warning_collect (e : string)
    (** [st.warning(f"Could not collect performance data: {str(e)}")] *)
| st_toast (text : string)
| st_metric (label value : string)
| st_metric_percent (label : string) (value : Q) (delta : option Q)
    (** [st.metric(label, f"{value:.1f}%", delta=f"{delta:.1f}%")] *)
| st_metric_mb (label : string) (value : Q)
    (** [st.metric(label, f"{value:.0f}MB")] *)
| progress (value : Q)
| progress_empty
| status_text (text : string)
| status_empty
| sleep (seconds : Q)
| optimize_memory_called
    (** [memory_optimizer.optimize_memory(force=True)] was called *)
| clear_lazy_cache_called
    (** [clear_lazy_cache()] was called *).

Definition emit (e : list event) : Py.t (list event) unit :=
  Py.modify (fun t => t ++ e).

Local Open Scope py_scope.

(** *** "Force Memory Cleanup" (lines 1125-1167) *)

Record cleanup_world : Type := {
  MEMORY_OPTIMIZER_AVAILABLE : bool;
  optimize_memory : result pyval;
  (** [from infrastructure.utilities.lazy_imports import clear_lazy_cache] *)
  import_lazy_imports : result unit;
  clear_lazy_cache : result unit
}.

Definition cleanup_steps : list string :=
  [ "Clearing temporary files"; "Optimizing memory usage"; "Clearing import cache";
    "Garbage collection"; "Cleanup complete" ].

(** Lines 1149-1160: the operation of step [i]. *)
Definition cleanup_operation (w : cleanup_world) (i : nat) : Py.t (list event) unit :=
  if Nat.eqb i 1 then
    Py.try_except
      (if MEMORY_OPTIMIZER_AVAILABLE w then
         run emit [optimize_memory_called] then
         run Py.call (optimize_memory w) then
         Py.ret tt
       else Py.ret tt)
      (Py.except_Exception (fun _ => Py.ret tt))
  else if Nat.eqb i 2 then
    Py.try_except
      (run Py.call (import_lazy_imports w) then
       run emit [clear_lazy_cache_called] then
       Py.call (clear_lazy_cache w))
      (Py.except_ImportError (fun _ => Py.ret tt))
  else Py.ret tt.

(** [for i, step in enumerate(cleanup_steps): ...], from index [i] on;
    [n] is [len(cleanup_steps)]. *)
Fixpoint cleanup_loop (w : cleanup_world) (n i : nat) (steps : list string)
  : Py.t (list event) unit :=
  match steps with
  | [] => Py.ret tt
  | step :: rest =>
      run emit [progress (Bulk.fraction i n); status_text step; sleep (1 # 2)] then
      run cleanup_operation w i then
      cleanup_loop w n (S i) rest
  end.

(** What pressing the button does. *)
Definition force_memory_cleanup (w : cleanup_world) : Py.t (list event) unit :=
  run emit [st_markdown "Memory Cleanup Progress"; progress 0] then
  Py.try_except
    (run cleanup_loop w (length cleanup_steps) 0 cleanup_steps then
     emit [progress_empty; status_empty;
           st_toast "Memory cleanup completed successfully!"])
    (Py.except_Exception (fun e =>
       emit [st_toast ("Cleanup partially failed: " ++ exn_msg e)])).

(** How the import and the call of lines 1157-1158 end together. *)
Definition cache_clearing (w : cleanup_world) : result unit :=
  match import_lazy_imports w with
  | Ret _ => clear_lazy_cache w
  | Raise e => Raise e
  end.

Fixpoint progress_values (events : list event) : list Q :=
  match events with
  | [] => []
  | progress v :: rest => v :: progress_values rest
  | _ :: rest => progress_values rest
  end.

(** *** "Run Health Check" (lines 1180-1225) *)

(** The two results keep their icon: the code looks for it. *)
Definition healthy_text : string := "✅ Healthy".
Definition slow_text : string := "⚠️ Slow".

(** [sub in s] on strings. *)
Definition py_contains (sub s : string) : bool :=
  match String.index 0 sub s with
  | Some _ => true
  | None => false
  end.

(** [d[k] = v] on a dict, which keeps insertion order. *)
Fixpoint dict_set (d : list (string * string)) (k v : string) : list (string * string) :=
  match d with
  | [] => [(k, v)]
  | (k', v') :: d' =>
      if String.eqb k' k then (k', v) :: d' else (k', v') :: dict_set d' k v
  end.

(** Lines 1197-1204, from index [i] on, with the dict [results] built so
    far: the events drawn and the final dict. *)
Fixpoint check_components (n i : nat) (checks : list (string * string))
    (results : list (string * string)) : list event * list (string * string) :=
  match checks with
  | [] => ([], results)
  | (component, description) :: rest =>
      let '(events, final) :=
        check_components n (S i) rest
          (dict_set results component (if Nat.ltb i 4 then healthy_text else slow_text)) in
      (progress (Bulk.fraction i n)
       :: status_text (description ++ "...")
       :: sleep (3 # 10)
       :: events,
       final)
  end.

(** Lines 1211-1219. *)
Definition display_results (results : list (string * string)) : list event :=
  flat_map (fun r => [ st_text r.1;
                       if py_contains "✅" r.2 then st_success r.2 else st_warning r.2 ])
           results.

(** [sum(1 for status in results.values() if "✅" in status)]. *)
Definition healthy_count (results : list (string * string)) : nat :=
  length (filter (fun r => py_contains "✅" r.2 = true) results).

Definition passed_toast : event := st_toast "System health check passed!".
Definition issues_toast : event := st_toast "Some issues detected in health check".

(** What pressing the button does, for the list [health_checks] of
    lines 1185-1191.  The division of line 1221 raises on an empty
    dict. *)
Definition run_health_check (health_checks : list (string * string))
  : Py.t (list event) unit :=
  let '(events, results) := check_components (length health_checks) 0 health_checks [] in
  run emit (st_markdown "System Health Analysis" :: progress 0 :: events) then
  run emit [progress_empty; status_empty; st_markdown "Health Check Results"] then
  run emit (display_results results) then
  if Nat.eqb (length results) 0 then
    Py.raise (Exn OtherException "ZeroDivisionError: division by zero")
  else
    let overall_health :=
      (inject_Z (Z.of_nat (healthy_count results))
       / inject_Z (Z.of_nat (length results)))%Q in
    if Health.Qgtb overall_health (8 # 10)
    then emit [passed_toast]
    else emit [issues_toast].

(** The list of lines 1185-1191. *)
Definition health_checks : list (string * string) :=
  [ ("Core Components", "Checking essential modules");
    ("Memory Status", "Analyzing memory usage");
    ("Network Connectivity", "Testing connections");
    ("File System", "Validating file access");
    ("Performance", "Measuring response times") ].

(** The comparison of line 1222 in binary64, for [n] components of which
    the first four are healthy. *)
Definition float_verdict (n : nat) : bool :=
  PrimFloat.ltb Literal.zero_point_eight
    (PrimFloat.div (Bulk.float_of_nat (Nat.min n 4)) (Bulk.float_of_nat n)).

(** *** The current health status (lines 1228-1243) *)

(** [health_status.get('issues', [])]. *)
Definition get_issues_or_empty (r : Health.returned) : result (list Health.issue) :=
  match r with
  | Health.ReturnedNone =>
      Raise (Exn OtherException "AttributeError: 'NoneType' object has no attribute 'get'")
  | Health.ReturnedStatus h => Ret (Health.issues h)
  | Health.ReturnedOnError _ i => Ret i
  end.

(** [health_status['warnings']]. *)
Definition get_warnings (r : Health.returned) : result (list Health.warning) :=
  match r with
  | Health.ReturnedNone =>
      Raise (Exn OtherException "TypeError: 'NoneType' object is not subscriptable")
  | Health.ReturnedStatus h => Ret (Health.warnings h)
  | Health.ReturnedOnError _ _ => Raise (Exn OtherException "KeyError: warnings")
  end.

Definition health_display (health_status : Health.returned) : Py.t (list event) unit :=
  let* is_healthy := Py.call (Health.get_healthy health_status) in
  run (if is_healthy then
         emit [ st_success "Application is healthy";
                st_metric "Health Score" "98%";
                st_metric "Uptime" "2h 34m" ]
       else
         run emit [st_error "Application has issues"] then
         let* issues := Py.call (get_issues_or_empty health_status) in
         run emit (map st_error_issue issues) then
         let* issues := Py.call (get_issues_or_empty health_status) in
         emit (map st_error_issue issues)) then
  let* warnings := Py.call (get_warnings health_status) in
  match warnings with
  | [] => Py.ret tt
  | _ :: _ => emit [st_warnings warnings]
  end.

(** An event drawn by [st.error]. *)
Definition is_error (e : event) : bool :=
  match e with
  | st_error _ | st_error_issue _ => true
  | _ => false
  end.

(** *** "Show Detailed Performance Data" (lines 1269-1340) *)

(** [v.get(key, default)]: only a dict has the method among the values
    modelled. *)
Definition py_get (v : pyval) (key : string) (default : pyval) : result pyval :=
  match v with
  | VDict d =>
      Ret (match assoc_get d key with Some x => x | None => default end)
  | _ => Raise (Exn OtherException "AttributeError: object has no attribute 'get'")
  end.

(** A value used as a number in a comparison with a number, in
    arithmetic and under a float format. *)
Definition py_number (v : pyval) : result Q :=
  match v with
  | VInt z => Ret (inject_Z z)
  | VFloat q => Ret q
  | VBool b => Ret (if b then 1 else 0)%Q
  | _ => Raise (Exn OtherException "TypeError: not a number")
  end.

(** Lines 1269-1324 and 1339-1340; [get_performance_summary] is how
    [performance_monitor.get_performance_summary()] ends.  (The
    lazy-loading statistics of lines 1326-1338, drawn after the health
    indicators, are left out.) *)
Definition performance_data (checked : bool) (PERFORMANCE_MONITOR_AVAILABLE : bool)
    (performance_monitor : pyval) (get_performance_summary : result pyval)
  : Py.t (list event) unit :=
  if checked then
    let* summary :=
      (if PERFORMANCE_MONITOR_AVAILABLE && truthy performance_monitor then
         Py.try_except
           (Py.call get_performance_summary)
           (Py.except_Exception (fun e =>
              run emit [st_warning_collect (exn_msg e)] then Py.ret VNone))
       else Py.ret VNone) in
    let* system := Py.call (py_get summary "system" VNone) in
    if truthy system then
      run emit [st_markdown "System Resources"] then
      let* system := Py.call (py_getitem summary "system") in
      let* cpu := Py.call (py_get system "cpu_percent" (VInt 0)) in
      let* cpu_percent := Py.call (py_number cpu) in
      run emit [st_metric_percent "CPU Usage" cpu_percent
                  (if Health.Qgtb cpu_percent 50 then Some (cpu_percent - 50)%Q
                   else None)] then
      let* system := Py.call (py_getitem summary "system") in
      let* memory := Py.call (py_get system "memory_percent" (VInt 0)) in
      let* memory_percent := Py.call (py_number memory) in
      run emit [st_metric_percent "Memory Usage" memory_percent
                  (if Health.Qgtb memory_percent 60 then Some (memory_percent - 60)%Q
                   else None)] then
      let* system := Py.call (py_getitem summary "system") in
      let* used := Py.call (py_get system "memory_used_mb" (VInt 0)) in
      let* memory_used := Py.call (py_number used) in
      run emit [st_metric_mb "Memory Used" memory_used;
                st_markdown "Health Indicators"] then
      run emit [ if Health.Qgtb cpu_percent 80 then st_warning "High CPU usage detected"
                 else if Health.Qgtb 20 cpu_percent then st_success "CPU running efficiently"
                 else st_info "CPU usage normal" ] then
      emit [ if Health.Qgtb memory_percent 85
             then st_error "High memory usage - consider restarting"
             else if Health.Qgtb 40 memory_percent then st_success "Memory usage optimal"
             else st_info "Memory usage normal" ]
    else
      emit [st_info
        "Performance data not available - system monitoring may be disabled"]
  else Py.ret tt.

Definition not_available : event :=
  st_info "Performance data not available - system monitoring may be disabled".

(** A world in which the optimizer and the cache clearing both raise. *)
Definition cleanup_breaks : cleanup_world :=
  {| MEMORY_OPTIMIZER_AVAILABLE := true;
     optimize_memory := Raise (Exn OtherException "MemoryError");
     import_lazy_imports := Ret tt;
     clear_lazy_cache := Raise (Exn OtherException "cache is locked") |}.

(** The same world with an optimizer that answers. *)
Definition cleanup_breaks_optimizer_answers : cleanup_world :=
  {| MEMORY_OPTIMIZER_AVAILABLE := true;
     optimize_memory := Ret (VDict [("status", VStr "completed")]);
     import_lazy_imports := Ret tt;
     clear_lazy_cache := Raise (Exn OtherException "cache is locked") |}.

(** The lazy-import module is not installed. *)
Definition no_lazy_imports : cleanup_world :=
  {| MEMORY_OPTIMIZER_AVAILABLE := false;
     optimize_memory := Ret VNone;
     import_lazy_imports := Raise (Exn ImportError "No module named 'infrastructure'");
     clear_lazy_cache := Ret tt |}.

End Settings.

(** ** [cleanup_on_exit] (lines 1487-1507) *)

Module Exit.

Inductive call : Type :=
| cleanup_performance_monitor_called
| cleanup_document_resources_called
| close_all_connections_called.

Record world : Type := {
  (** [from infrastructure.monitoring.performance_monitor import
      cleanup_performance_monitor] *)
  import_performance_monitor : result unit;
  cleanup_performance_monitor : result unit;
  (** [from resume_customizer.processors.document_processor import
      cleanup_document_resources] *)
  import_document_processor : result unit;
  cleanup_document_resources : result unit;
  EMAIL_MANAGER_AVAILABLE : bool;
  (** [email_manager.close_all_connections()] *)
  close_all_connections : result unit
}.

Record state : Type := { calls : list call; exit_log : log }.

Definition called (c : call) : Py.t state unit :=
  Py.modify (fun s => {| calls := calls s ++ [c]; exit_log := exit_log s |}).

Definition logger (lvl : log_level) (msg : string) : Py.t state unit :=
  Py.modify (fun s => {| calls := calls s; exit_log := exit_log s ++ [(lvl, msg)] |}).

Local Open Scope py_scope.

Definition cleanup_on_exit (w : world) : Py.t state unit :=
  Py.try_except
    (run Py.call (import_performance_monitor w) then
     run called cleanup_performance_monitor_called then
     run Py.call (cleanup_performance_monitor w) then
     run Py.try_except
           (run Py.call (import_document_processor w) then
            run called cleanup_document_resources_called then
            Py.call (cleanup_document_resources w))
           (Py.except_ImportError (fun _ => Py.ret tt)) then
     run (if EMAIL_MANAGER_AVAILABLE w then
            run called close_all_connections_called then
            Py.call (close_all_connections w)
          else Py.ret tt) then
     logger INFO "Application cleanup completed")
    (Py.except_Exception (fun e =>
       logger ERROR ("Error during cleanup: " ++ exn_msg e))).

Definition start : state := {| calls := []; exit_log := [] |}.

(** The document step does not stop the function: it returns, or it
    raises an [ImportError]. *)
Definition document_step_passes (w : world) : bool :=
  match import_document_processor w with
  | Ret _ =>
      match cleanup_document_resources w with
      | Ret _ => true
      | Raise e => match exn_cls e with ImportError => true | OtherException => false end
      end
  | Raise e => match exn_cls e with ImportError => true | OtherException => false end
  end.

(** The performance monitor cannot be imported; an email manager is in
    use. *)
Definition no_performance_monitor : world :=
  {| import_performance_monitor := Raise (Exn ImportError "No module named 'infrastructure'");
     cleanup_performance_monitor := Ret tt;
     import_document_processor := Ret tt;
     cleanup_document_resources := Ret tt;
     EMAIL_MANAGER_AVAILABLE := true;
     close_all_connections := Ret tt |}.

End Exit.

(** ** The forms of the requirements tab (lines 423-493) *)

Module RequirementsForms.

Inductive event : Type :=
| st_error (text : string)
| st_info (text : string)
| st_warning (text : string)
| st_success (text : string)
| st_info_requirement_id (requirement_id : pyval)
    (** [st.info(f"Requirement ID: {requirement_id}")] *)
| st_text_area (label : string)
| st_button_disabled (label : string)
| st_tabs (labels : list string)
| logger_error (text : string)
| get_requirement_called (edit_id : pyval)
| render_requirement_form_called (requirement_to_edit : pyval)
| update_requirement_called (edit_id form_data : pyval)
| create_requirement_called (form_data : pyval)
| render_requirements_list_called.

(** How the collaborators behave in one run; the methods are those of
    [st.session_state.requirements_manager]. *)
Record world : Type := {
  (** [from ui.requirements_manager import render_requirement_form,
      render_requirements_list] *)
  import_requirements_ui : result unit;
  (** [st.query_params.get("edit")] *)
  edit_id : pyval;
  get_requirement : pyval -> result pyval;
  render_requirement_form : pyval -> result pyval;
  update_requirement : pyval -> pyval -> result pyval;
  create_requirement : pyval -> result pyval;
  render_requirements_list : result unit
}.

Inductive outcome : Type :=
| PlaceholderShown
    (** the [return] of line 436 *)
| FormFailed
    (** the [return] of line 459 *)
| Rendered
    (** control reaches the end of the [try] *)
| ErrorShown
    (** the [except Exception] of line 489 *).

Definition emit (e : list event) : Py.t (list event) unit :=
  Py.modify (fun t => t ++ e).

Local Open Scope py_scope.

(** Lines 443-452: the requirement to edit.  (Control reaches these
    lines only past line 419, so ['requirements_manager'] is in the
    session state.) *)
Definition load_requirement (w : world) : Py.t (list event) pyval :=
  if truthy (edit_id w) then
    Py.try_except
      (run emit [get_requirement_called (edit_id w)] then
       let* requirement_to_edit := Py.call (get_requirement w (edit_id w)) in
       run (if negb (truthy requirement_to_edit)
            then emit [st_warning "The requirement you're trying to edit doesn't exist."]
            else Py.ret tt) then
       Py.ret requirement_to_edit)
      (Py.except_Exception (fun e =>
         run emit [st_warning ("Could not load requirement for editing: " ++ exn_msg e)] then
         Py.ret VNone))
  else Py.ret VNone.

(** Lines 462-480: the submitted form is saved. *)
Definition save (w : world) (requirement_to_edit form_data : pyval)
  : Py.t (list event) unit :=
  if truthy form_data then
    Py.try_except
      (if truthy requirement_to_edit then
         run emit [update_requirement_called (edit_id w) form_data] then
         let* updated := Py.call (update_requirement w (edit_id w) form_data) in
         if truthy updated
         then emit [st_success "Requirement updated successfully!"]
         else emit [st_error "Failed to update requirement. It may have been deleted."]
       else
         run emit [create_requirement_called form_data] then
         let* requirement_id := Py.call (create_requirement w form_data) in
         if truthy requirement_id
         then emit [st_success "Requirement created successfully!";
                    st_info_requirement_id requirement_id]
         else emit [st_error "Failed to create requirement. Please try again."])
      (Py.except_Exception (fun e =>
         emit [st_error ("An error occurred: " ++ exn_msg e);
               logger_error ("Error saving requirement: " ++ exn_msg e)]))
  else Py.ret tt.

(** Lines 423-493 of [render_requirements_tab], with the [except] of
    the whole function. *)
Definition render_forms (w : world) : Py.t (list event) outcome :=
  Py.try_except
    (let* REQUIREMENTS_FUNCTIONS_AVAILABLE :=
       Py.try_except
         (run Py.call (import_requirements_ui w) then Py.ret true)
         (Py.except_ImportError (fun _ => Py.ret false)) in
     if negb REQUIREMENTS_FUNCTIONS_AVAILABLE then
       run emit [st_error "Requirements management functions not available";
                 st_info "Basic requirements interface will be shown instead";
                 st_text_area "Job Description";
                 st_text_area "Required Skills";
                 st_button_disabled "Save Requirement (Placeholder)"] then
       Py.ret PlaceholderShown
     else
       run emit [st_tabs ["Create/Edit Requirement"; "View Requirements"]] then
       let* requirement_to_edit := load_requirement w in
       let* form :=
         Py.try_except
           (run emit [render_requirement_form_called requirement_to_edit] then
            let* form_data := Py.call (render_requirement_form w requirement_to_edit) in
            Py.ret (Some form_data))
           (Py.except_Exception (fun e =>
              run emit [st_error ("Error rendering requirement form: " ++ exn_msg e)] then
              Py.ret None)) in
       match form with
       | None => Py.ret FormFailed
       | Some form_data =>
           run save w requirement_to_edit form_data then
           run Py.try_except
                 (run emit [render_requirements_list_called] then
                  Py.call (render_requirements_list w))
                 (Py.except_Exception (fun e =>
                    emit [st_error ("Error loading requirements list: " ++ exn_msg e);
                          st_info
                            "Please try refreshing the page or check the application logs."])) then
           Py.ret Rendered
       end)
    (Py.except_Exception (fun e =>
       run emit [st_error ("An error occurred in the Requirements tab: " ++ exn_msg e);
                 logger_error ("Requirements tab error: " ++ exn_msg e);
                 st_info
                   "There was an error loading the requirements manager. Please refresh the page."] then
       Py.ret ErrorShown)).

(** The value of [requirement_to_edit] at line 456. *)
Definition loaded (w : world) : pyval :=
  if truthy (edit_id w) then
    match get_requirement w (edit_id w) with
    | Ret r => r
    | Raise _ => VNone
    end
  else VNone.

(** The calls of [update_requirement], with their arguments. *)
Fixpoint updates (events : list event) : list (pyval * pyval) :=
  match events with
  | [] => []
  | update_requirement_called i f :: rest => (i, f) :: updates rest
  | _ :: rest => updates rest
  end.

(** The calls of [create_requirement], with their argument. *)
Fixpoint creates (events : list event) : list pyval :=
  match events with
  | [] => []
  | create_requirement_called f :: rest => f :: creates rest
  | _ :: rest => creates rest
  end.

(** The number of calls of [render_requirements_list]. *)
Fixpoint lists_rendered (events : list event) : nat :=
  match events with
  | [] => 0
  | render_requirements_list_called :: rest => S (lists_rendered rest)
  | _ :: rest => lists_rendered rest
  end.

(** A link to edit a requirement that has been deleted: the manager
    returns [None] for it. *)
Definition stale_edit_link : world :=
  {| import_requirements_ui := Ret tt;
     edit_id := VStr "req-42";
     get_requirement := fun _ => Ret VNone;
     render_requirement_form := fun _ => Ret (VDict [("job_title", VStr "Engineer")]);
     update_requirement := fun _ _ => Ret (VBool true);
     create_requirement := fun _ => Ret (VStr "req-43");
     render_requirements_list := Ret tt |}.

(** The form cannot be drawn. *)
Definition form_breaks : world :=
  {| import_requirements_ui := Ret tt;
     edit_id := VNone;
     get_requirement := fun _ => Ret VNone;
     render_requirement_form := fun _ => Raise (Exn OtherException "duplicate widget key");
     update_requirement := fun _ _ => Ret (VBool true);
     create_requirement := fun _ => Ret (VStr "req-43");
     render_requirements_list := Ret tt |}.

End RequirementsForms.

(** ** The requirements tab of [main] (lines 983-1008) *)

Module RequirementsPanel.

Inductive event : Type :=
| st_header (text : string)
| st_markdown (text : string)
| st_tabs (labels : list string)
| logger_warning (text : string)
| render_requirements_tab_called
| render_smart_customization_panel_called
| render_requirements_analytics_called.

Record world : Type := {
  (** [from requirements_integration import
      render_smart_customization_panel, render_requirements_analytics] *)
  import_requirements_integration : result unit;
  render_smart_customization_panel : result unit;
  render_requirements_analytics : result unit
}.

Definition emit (e : list event) : Py.t (list event) unit :=
  Py.modify (fun t => t ++ e).

Local Open Scope py_scope.

(** [render_requirements_tab()] is recorded as a call: it handles its
    own exceptions (line 489) and returns. *)
Definition requirements_tab (w : world) : Py.t (list event) unit :=
  run emit [st_header "Requirements Management";
            st_markdown
              "Manage job requirements and customize resumes for specific positions"] then
  Py.try_except
    (run Py.call (import_requirements_integration w) then
     run emit [st_tabs ["Create/View"; "Smart Customization"; "Analytics"];
               render_requirements_tab_called;
               render_smart_customization_panel_called] then
     run Py.call (render_smart_customization_panel w) then
     run emit [render_requirements_analytics_called] then
     Py.call (render_requirements_analytics w))
    (Py.except_ImportError (fun e =>
       emit [logger_warning ("Enhanced requirements features not available: "
                             ++ exn_msg e);
             render_requirements_tab_called])).

(** The first exception of the [try] block, if any. *)
Definition first_failure (w : world) : option exn :=
  match import_requirements_integration w with
  | Raise e => Some e
  | Ret _ =>
      match render_smart_customization_panel w with
      | Raise e => Some e
      | Ret _ =>
          match render_requirements_analytics w with
          | Raise e => Some e
          | Ret _ => None
          end
      end
  end.

(** The number of calls of [render_requirements_tab]. *)
Fixpoint tab_renderings (events : list event) : nat :=
  match events with
  | [] => 0
  | render_requirements_tab_called :: rest => S (tab_renderings rest)
  | _ :: rest => tab_renderings rest
  end.

(** The panel imports a module lazily and fails on it. *)
Definition panel_import_fails : world :=
  {| import_requirements_integration := Ret tt;
     render_smart_customization_panel :=
       Raise (Exn ImportError "No module named 'sklearn'");
     render_requirements_analytics := Ret tt |}.

End RequirementsPanel.

(** * Properties *)

(** ** Requirements storage: tier order *)

Module RequirementsFacts.

Import Requirements.

Ltac run_resolver :=
  unfold resolve, get_cached_requirements_manager, fallback_or_None,
    import_and_construct, logger, database_probe, step_ok, imported,
    Py.try_except, Py.bind, Py.call, Py.ret, Py.modify, Py.orelse,
    Py.except_ImportError, Py.except_Exception in *;
  simpl in *.

Ltac split_result r :=
  let u := fresh "u" in
  let c := fresh "c" in
  let m := fresh "m" in
  destruct r as [u | [c m]]; [ | destruct c ]; simpl in *.

(** When the requirements manager cannot be imported, every path of the
    resolver ends in [return None]. *)
Lemma resolve_without_manager (w : world) (msg : string) :
  import_requirements_integration w = Raise (Exn ImportError msg) ->
  resolve w = Ret None.
Proof.
  destruct w as [imp env ini sch rm con]; simpl; intros ->.
  run_resolver.
  split_result imp; try reflexivity.
  split_result env; try reflexivity.
  destruct (py_getitem u0 "success") as [ok | [[] m]]; simpl; try reflexivity.
  destruct (truthy ok); simpl; try reflexivity.
  split_result ini; try reflexivity.
  destruct (truthy u1); simpl; try reflexivity.
  split_result sch; try reflexivity.
  destruct (truthy u2); simpl; reflexivity.
Qed.

(** When the manager imports and its JSON construction returns, a failed
    database probe gives the JSON-backed manager. *)
Lemma resolve_json_fallback (w : world) :
  import_requirements_integration w = Ret tt ->
  construct w false = Ret tt ->
  database_probe w = false ->
  resolve w = Ret (Some {| use_database := false |}).
Proof.
  destruct w as [imp env ini sch rm con]; simpl; intros -> Hc.
  run_resolver. rewrite !Hc.
  split_result imp; try reflexivity.
  split_result env; try reflexivity.
  destruct (py_getitem u0 "success") as [ok | [[] m]]; simpl; try reflexivity.
  destruct (truthy ok); simpl; try reflexivity.
  split_result ini; try reflexivity.
  destruct (truthy u1); simpl; try reflexivity.
  split_result sch; try reflexivity.
  destruct (truthy u2); simpl; try reflexivity.
  discriminate.
Qed.

Lemma resolve_database (w : world) :
  import_requirements_integration w = Ret tt ->
  construct w true = Ret tt ->
  database_probe w = true ->
  resolve w = Ret (Some {| use_database := true |}).
Proof.
  destruct w as [imp env ini sch rm con]; simpl; intros -> Hc.
  run_resolver. rewrite !Hc.
  split_result imp; try discriminate.
  split_result env; try discriminate.
  destruct (py_getitem u0 "success") as [ok | [[] m]]; simpl; try discriminate.
  destruct (truthy ok); simpl; try discriminate.
  split_result ini; try discriminate.
  destruct (truthy u1); simpl; try discriminate.
  split_result sch; try discriminate.
  destruct (truthy u2); simpl; try discriminate.
  reflexivity.
Qed.

(** The database-backed manager is returned only after every step of the
    database probe succeeded. *)
Lemma resolve_database_only_if (w : world) :
  resolve w = Ret (Some {| use_database := true |}) ->
  database_probe w = true.
Proof.
  destruct w as [imp env ini sch rm con]; simpl.
  run_resolver.
  split_result imp;
    try (split_result rm; try discriminate;
         destruct (con false) as [? | [[] ?]]; simpl; discriminate).
  split_result env;
    try (split_result rm; try discriminate;
         destruct (con false) as [? | [[] ?]]; simpl; discriminate).
  destruct (py_getitem u0 "success") as [ok | [[] m]]; simpl;
    try (split_result rm; try discriminate;
         destruct (con false) as [? | [[] ?]]; simpl; discriminate).
  destruct (truthy ok); simpl;
    try (split_result rm; try discriminate;
         destruct (con false) as [? | [[] ?]]; simpl; discriminate).
  split_result ini;
    try (split_result rm; try discriminate;
         destruct (con false) as [? | [[] ?]]; simpl; discriminate).
  destruct (truthy u1); simpl;
    try (split_result rm; try discriminate;
         destruct (con false) as [? | [[] ?]]; simpl; discriminate).
  split_result sch;
    try (split_result rm; try discriminate;
         destruct (con false) as [? | [[] ?]]; simpl; discriminate).
  destruct (truthy u2); simpl;
    try (split_result rm; try discriminate;
         destruct (con false) as [? | [[] ?]]; simpl; discriminate).
  reflexivity.
Qed.

(** C1, as the code has it.  Provided [RequirementsManager] can be
    imported and [RequirementsManager(use_database=False)] returns, the
    tiers are taken in order: in every run in which a step of the
    database probe fails or raises, the resolver returns a manager
    constructed with [use_database=False]; when every step succeeds (and
    the database-backed construction returns) it returns one with
    [use_database=True]; and it returns one with [use_database=True] only
    when every database step succeeded. *)
Theorem resolver_takes_first_available_tier (w : world) :
  import_requirements_integration w = Ret tt ->
  construct w false = Ret tt ->
  (database_probe w = false ->
   resolve w = Ret (Some {| use_database := false |}))
  /\ (database_probe w = true -> construct w true = Ret tt ->
      resolve w = Ret (Some {| use_database := true |}))
  /\ (resolve w = Ret (Some {| use_database := true |}) ->
      database_probe w = true).
Proof.
  intros Hrm Hjson. split; [ | split ].
  - now apply resolve_json_fallback.
  - intros Hdb Hcon. now apply resolve_database.
  - apply resolve_database_only_if.
Qed.

(** The database connection fails, the manager is installed: the JSON
    tier is chosen. *)
Lemma resolver_takes_first_available_tier_witness :
  resolve Scenario.connection_fails = Ret (Some {| use_database := false |}).
Proof.
  exact (proj1 (resolver_takes_first_available_tier
                  Scenario.connection_fails eq_refl eq_refl) eq_refl).
Defined.

(** C1 as stated fails: the environment setup fails, so a step of the
    database probe failed, yet the resolver does not return a manager
    with [use_database=False]; [requirements_integration] is missing and
    it returns [None]. *)
Lemma database_step_fails_without_manager :
  database_probe Scenario.setup_fails_no_manager = false
  /\ resolve Scenario.setup_fails_no_manager = Ret None
  /\ resolve Scenario.setup_fails_no_manager
     <> Ret (Some {| use_database := false |}).
Proof. split; [ reflexivity | split; [ reflexivity | discriminate ] ]. Qed.

End RequirementsFacts.

(** ** Requirements storage: no tier available *)

Module RequirementsTabFacts.

Import Requirements RequirementsTab.

(** C8 as stated fails: with neither the database nor
    [requirements_integration] installed, the resolver's result is
    [None], not an instance of the manager's interface. *)
Lemma resolver_returns_None_when_nothing_installed :
  resolve Scenario.nothing_installed = Ret None
  /\ ~ exists m : RequirementsManager,
         resolve Scenario.nothing_installed = Ret (Some m).
Proof.
  split; [ reflexivity | ].
  intros [m H]. discriminate H.
Qed.

(** C8, as the code has it.  When [RequirementsManager] cannot be
    imported the resolver returns [None], whatever the database does, and
    the caller checks for it: the requirements tab of a session without a
    manager shows an error, returns early and stores no manager. *)
Theorem unavailable_manager_is_None_and_checked (w : world) (msg : string) :
  import_requirements_integration w = Raise (Exn ImportError msg) ->
  resolve w = Ret None
  /\ render_requirements_tab (resolve w) fresh_session
     = ({| requirements_manager := None;
           ui := [ st_title "Requirements Manager";
                   st_write
                     "Create and manage job requirements to customize your resume for specific positions.";
                   st_error
                     "Requirements manager not available. Please check that all dependencies are installed." ];
           tab_log := [] |},
        Ret ReturnedEarly).
Proof.
  intros H.
  pose proof (RequirementsFacts.resolve_without_manager w msg H) as ->.
  split; reflexivity.
Qed.

Lemma unavailable_manager_is_None_and_checked_witness :
  resolve Scenario.nothing_installed = Ret None.
Proof.
  exact (proj1 (unavailable_manager_is_None_and_checked
                  Scenario.nothing_installed _ eq_refl)).
Defined.

End RequirementsTabFacts.

(** ** Lazy singletons *)

Module SingletonFacts.

Import Singleton.








(** Identity is not equality of contents: each construction yields a new
    address, so two invocations of the factory would be told apart. *)
Remark constructions_yield_distinct_objects (w : world) (g : globals) (r1 r2 : ref) :
  (UIComponents w g).2 = Ret r1 ->
  (UIComponents w (UIComponents w g).1).2 = Ret r2 ->
  r1 <> r2.
Proof.
  unfold UIComponents, Py.bind, Py.get, Py.modify, Py.call, Py.ret. simpl.
  destruct (UIComponents_init w (constructions g)) as [[] | e]; simpl; [ | discriminate ].
  destruct (UIComponents_init w (S (constructions g))) as [[] | e]; simpl;
    [ | discriminate ].
  intros [= <-] [= <-]. lia.
Qed.


End SingletonFacts.

(** ** Session initialisation *)

Module SessionFacts.

Import Session.

Lemma set_default_keeps (s : session_state) (item : string * pyval) (k : string) (v : pyval) :
  s !! k = Some v -> set_default s item !! k = Some v.
Proof.
  intros H. unfold set_default.
  destruct (s !! item.1) eqn:E; [ assumption | ].
  rewrite lookup_insert_ne; [ assumption | ].
  intros Heq. rewrite Heq in E. congruence.
Qed.

Lemma apply_defaults_keeps (defaults : list (string * pyval)) (s : session_state)
    (k : string) (v : pyval) :
  s !! k = Some v -> apply_defaults defaults s !! k = Some v.
Proof.
  revert s. induction defaults as [ | item rest IH ]; intros s H; simpl.
  - assumption.
  - apply IH. now apply set_default_keeps.
Qed.

(** A key that is absent receives the value its first item gives it. *)
Lemma apply_defaults_fills (defaults : list (string * pyval)) (s : session_state)
    (k : string) :
  s !! k = None -> apply_defaults defaults s !! k = default_of defaults k.
Proof.
  revert s. induction defaults as [ | [k' v'] rest IH ]; intros s H; simpl.
  - assumption.
  - unfold set_default at 1. simpl.
    destruct (String.eqb_spec k' k) as [-> | Hne].
    + rewrite H. apply apply_defaults_keeps. apply lookup_insert_eq.
    + apply IH. destruct (s !! k') eqn:E; [ assumption | ].
      rewrite lookup_insert_ne; assumption.
Qed.

Lemma default_of_elem (defaults : list (string * pyval)) (k : string) (v : pyval) :
  (k, v) ∈ defaults -> is_Some (default_of defaults k).
Proof.
  induction defaults as [ | [k' v'] rest IH ]; intros H.
  - inversion H.
  - simpl. destruct (String.eqb_spec k' k) as [-> | Hne]; [ eauto | ].
    apply IH. apply elem_of_cons in H as [H | H]; [ congruence | assumption ].
Qed.

(** After the loop every key of the defaults is present. *)
Lemma apply_defaults_covers (defaults : list (string * pyval)) (s : session_state)
    (k : string) (v : pyval) :
  (k, v) ∈ defaults -> is_Some (apply_defaults defaults s !! k).
Proof.
  intros H. destruct (s !! k) as [x | ] eqn:E.
  - exists x. now apply apply_defaults_keeps.
  - rewrite (apply_defaults_fills defaults s k E). now apply (default_of_elem _ _ v).
Qed.





(** The spec's scenario: defaults [{theme: "light"}], the field is set to
    ["dark"], initialisation runs again. *)
Example theme_stays_dark :
  let defaults := [("theme", VStr "light")] in
  let s1 := initialize_with defaults ∅ in
  let s2 := set_field "theme" (VStr "dark") s1 in
  s1 !! "theme" = Some (VStr "light")
  /\ initialize_with defaults s2 !! "theme" = Some (VStr "dark").
Proof. split; reflexivity. Qed.

(** The defaults of [app.py] on an empty session. *)
Example first_run_sets_defaults :
  initialize_session_state ∅ !! "current_tab" = Some (VStr "Upload Resume")
  /\ initialize_session_state ∅ !! "initialized" = Some (VBool true).
Proof. split; reflexivity. Qed.

End SessionFacts.

(** ** Health check: severity of findings *)

Module HealthFacts.

Import Health.

Ltac run_py :=
  unfold Py.try_except, Py.bind, Py.call, Py.ret, Py.modify, Py.get, Py.raise,
    Py.orelse, Py.except_ImportError, Py.except_Exception in *;
  simpl in *.

Lemma only_adds_trans (s1 s2 s3 : body_state) :
  only_adds_warnings s1 s2 -> only_adds_warnings s2 s3 -> only_adds_warnings s1 s3.
Proof.
  intros (H1 & H2 & ws & H3) (K1 & K2 & ws' & K3). repeat split; try congruence.
  exists (ws ++ ws'). rewrite K3, H3. now rewrite <- app_assoc.
Qed.

(** Closes [only_adds_warnings s s'] when [s'] is [s] with warnings
    appended. *)
Ltac solve_adds :=
  unfold only_adds_warnings; simpl;
  split; [ reflexivity | split; [ reflexivity | ] ];
  first [ eexists; reflexivity
        | exists []; symmetry; apply app_nil_r
        | eexists; rewrite <- app_assoc; reflexivity ].

(** The cleanup attempt never raises and only adds warnings. *)
Lemma automatic_cleanup_frame (w : world) (s : body_state) :
  (automatic_cleanup w s).2 = Ret tt
  /\ only_adds_warnings s (automatic_cleanup w s).1.
Proof.
  unfold automatic_cleanup. run_py.
  destruct (MEMORY_OPTIMIZER_AVAILABLE w); simpl; [ | split; [ reflexivity | solve_adds ] ].
  destruct (optimize_memory w) as [c | e]; simpl; [ | split; [ reflexivity | solve_adds ] ].
  destruct (py_getitem c "status") as [st | e]; simpl;
    [ | split; [ reflexivity | solve_adds ] ].
  destruct (is_completed st); simpl; [ | split; [ reflexivity | solve_adds ] ].
  destruct (py_getitem c "memory_saved_mb") as [mb | e]; simpl;
    [ | split; [ reflexivity | solve_adds ] ].
  destruct (format_1f mb) as [q | e]; simpl; (split; [ reflexivity | solve_adds ]).
Qed.

(** The memory check only adds warnings; what can leave it is an
    exception other than [ImportError], raised by the psutil import or by
    the probe; a percentage above 90 is reported as a warning. *)
Lemma memory_check_frame (w : world) (s : body_state) :
  only_adds_warnings s (memory_check w s).1
  /\ match (memory_check w s).2 with
     | Ret _ =>
         forall p, import_psutil w = Ret tt -> virtual_memory_percent w = Ret p ->
                   Qgtb p 90 = true ->
                   HighMemoryUsage p ∈ warnings (hs (memory_check w s).1)
     | Raise e => exn_cls e = OtherException /\ memory_probe_answers w = false
     end.
Proof.
  unfold memory_check, memory_probe_answers. run_py.
  destruct (import_psutil w) as [[] | [[] m]] eqn:Hp; simpl;
    [ | split; [ solve_adds | intros; discriminate ]
      | split; [ solve_adds | split; reflexivity ] ].
  destruct (virtual_memory_percent w) as [p | [[] m]] eqn:Hv; simpl;
    [ | split; [ solve_adds | intros; discriminate ]
      | split; [ solve_adds | split; reflexivity ] ].
  destruct (Qgtb p 90) eqn:H90; simpl;
    [ | split; [ solve_adds | intros ? _ [= <-]; congruence ] ].
  destruct (Qgtb p 95); simpl;
    match goal with |- context [automatic_cleanup w ?s0] =>
      assert (Hs : only_adds_warnings s s0) by solve_adds;
      assert (Hin : HighMemoryUsage p ∈ warnings (hs s0))
        by (simpl; rewrite !elem_of_app, !list_elem_of_singleton; auto);
      destruct (automatic_cleanup_frame w s0) as [Hr Hf];
      destruct (automatic_cleanup w s0) as [s3 r3] end;
    simpl in *; subst r3; simpl;
    (split;
     [ eapply only_adds_trans; eauto
     | intros q _ [= <-] _;
       destruct Hf as (_ & _ & ws & ->);
       apply elem_of_app; left; exact Hin ]).
Qed.

(** The disk check never raises and only adds warnings; a percentage
    above 90 is reported as a warning. *)
Lemma disk_check_frame (w : world) (s : body_state) :
  (disk_check w s).2 = Ret tt
  /\ only_adds_warnings s (disk_check w s).1
  /\ (forall d, import_psutil w = Ret tt -> disk_usage_percent w = Ret d ->
                Qgtb d 90 = true ->
                LowDiskSpace d ∈ warnings (hs (disk_check w s).1)).
Proof.
  unfold disk_check. run_py.
  destruct (import_psutil w) as [[] | [[] m]]; simpl;
    try (split; [ reflexivity | split; [ solve_adds | intros; discriminate ] ]).
  destruct (disk_usage_percent w) as [p | [[] m]]; simpl;
    try (split; [ reflexivity | split; [ solve_adds | intros; discriminate ] ]).
  destruct (Qgtb p 90) eqn:H90; simpl.
  - split; [ reflexivity | split; [ solve_adds | ] ].
    intros d _ [= <-] _. apply elem_of_app; right; left.
  - split; [ reflexivity | split; [ solve_adds | ] ].
    intros d _ [= <-]. congruence.
Qed.

(** The checks after the imports only add warnings; they return unless
    the memory probe raises something that is not an [ImportError]. *)
Lemma resource_checks_frame (w : world) (s : body_state) :
  only_adds_warnings s (resource_checks w s).1
  /\ match (resource_checks w s).2 with
     | Ret _ =>
         (forall p, import_psutil w = Ret tt -> virtual_memory_percent w = Ret p ->
                    Qgtb p 90 = true ->
                    HighMemoryUsage p ∈ warnings (hs (resource_checks w s).1))
         /\ (forall d, import_psutil w = Ret tt -> disk_usage_percent w = Ret d ->
                       Qgtb d 90 = true ->
                       LowDiskSpace d ∈ warnings (hs (resource_checks w s).1))
     | Raise e => exn_cls e = OtherException /\ memory_probe_answers w = false
     end.
Proof.
  unfold resource_checks, Py.bind.
  assert (H1 : only_adds_warnings s
            ((if negb (PERFORMANCE_MONITOR_AVAILABLE w)
                 || negb (truthy (performance_monitor w))
              then append_warning PerformanceMonitorNotAvailable
              else Py.ret tt) s).1
          /\ ((if negb (PERFORMANCE_MONITOR_AVAILABLE w)
                  || negb (truthy (performance_monitor w))
               then append_warning PerformanceMonitorNotAvailable
               else Py.ret tt) s).2 = Ret tt).
  { destruct (negb _ || negb _); (split; [ solve_adds | reflexivity ]). }
  destruct ((if negb (PERFORMANCE_MONITOR_AVAILABLE w)
                 || negb (truthy (performance_monitor w))
             then append_warning PerformanceMonitorNotAvailable
             else Py.ret tt) s) as [s1 r1].
  simpl in H1. destruct H1 as [H1 ->].
  destruct (memory_check_frame w s1) as [H2 Hm].
  destruct (memory_check w s1) as [s2 [[] | e]]; simpl in *.
  - destruct (disk_check_frame w s2) as (Hr & H3 & Hd).
    destruct (disk_check w s2) as [s3 r3]; simpl in *. subst r3.
    split; [ eauto using only_adds_trans | split; [ | exact Hd ] ].
    intros p Hp Hv H90. destruct H3 as (_ & _ & ws & ->).
    apply elem_of_app; left. now apply Hm.
  - split; [ eauto using only_adds_trans | exact Hm ].
Qed.

(** With the required modules imported, the body only adds warnings to
    its initial dict; it returns unless the memory probe raises something
    the body does not handle. *)
Lemma body_with_imports (w : world) (s : body_state) :
  required_imports_ok w = true ->
  only_adds_warnings s (check_application_health_body w s).1
  /\ match (check_application_health_body w s).2 with
     | Ret _ =>
         (forall p, import_psutil w = Ret tt -> virtual_memory_percent w = Ret p ->
                    Qgtb p 90 = true ->
                    HighMemoryUsage p ∈ warnings (hs (check_application_health_body w s).1))
         /\ (forall d, import_psutil w = Ret tt -> disk_usage_percent w = Ret d ->
                       Qgtb d 90 = true ->
                       LowDiskSpace d ∈ warnings (hs (check_application_health_body w s).1))
     | Raise e => exn_cls e = OtherException /\ memory_probe_answers w = false
     end.
Proof.
  unfold required_imports_ok, check_application_health_body, imported.
  unfold Py.try_except, Py.bind, Py.call, Py.except_ImportError.
  destruct (import_streamlit w) as [[] | ?]; [ | discriminate ].
  destruct (import_docx w) as [[] | ?]; [ | discriminate ].
  destruct (import_io w) as [[] | ?]; [ | discriminate ].
  intros _.
  destruct (resource_checks_frame w s) as [H1 H2].
  destruct (resource_checks w s) as [s1 [[] | e]]; simpl in *.
  - split; assumption.
  - destruct H2 as [Hc Hans]. rewrite Hc. simpl. auto.
Qed.

(** A required module that is missing: the body returns at once with the
    verdict set to unhealthy and the issue recorded. *)
Lemma body_missing_dependency (w : world) (s : body_state) (e : exn) :
  first_import_failure w = Some e ->
  exn_cls e = ImportError ->
  check_application_health_body w s
  = ({| hs := {| healthy := false;
                 issues := issues (hs s) ++ [MissingRequiredDependency (exn_msg e)];
                 warnings := warnings (hs s) |};
        hlog := hlog s |},
     Ret tt).
Proof.
  unfold first_import_failure, check_application_health_body. run_py.
  destruct (import_streamlit w) as [[] | e1]; simpl.
  - destruct (import_docx w) as [[] | e2]; simpl.
    + destruct (import_io w) as [[] | e3]; simpl; [ discriminate | ].
      intros [= ->] ->. reflexivity.
    + intros [= ->] ->. reflexivity.
  - intros [= ->] ->. reflexivity.
Qed.

Lemma imports_ok_iff_no_failure (w : world) :
  required_imports_ok w = true <-> first_import_failure w = None.
Proof.
  unfold required_imports_ok, first_import_failure, imported.
  destruct (import_streamlit w), (import_docx w), (import_io w); simpl;
    split; congruence.
Qed.

(** A required import that raises something other than [ImportError]
    is not handled: the exception leaves the body. *)
Lemma body_import_crashes (w : world) (s : body_state) (e : exn) :
  first_import_failure w = Some e ->
  exn_cls e = OtherException ->
  check_application_health_body w s = (s, Raise e).
Proof.
  unfold first_import_failure, check_application_health_body. run_py.
  destruct (import_streamlit w) as [[] | e1]; simpl.
  - destruct (import_docx w) as [[] | e2]; simpl.
    + destruct (import_io w) as [[] | e3]; simpl; [ discriminate | ].
      intros [= ->] ->. reflexivity.
    + intros [= ->] ->. reflexivity.
  - intros [= ->] ->. reflexivity.
Qed.

(** C4.  In every run of [check_application_health]'s body:
    (1) a required module that fails to import makes the function return
    with [healthy = False] and the issue appended, nothing else;
    (2) whenever the function returns a dict, [healthy] says exactly
    whether all required imports succeeded, and [issues] is empty exactly
    when it is healthy;
    (3) when the required imports succeed the function does return,
    unless the memory probe raises an exception the body has no handler
    for, and high memory usage and low disk space are then entries of
    [warnings], whatever the percentages are. *)
Theorem health_check_severity (w : world) (l : log) :
  (forall e, first_import_failure w = Some e -> exn_cls e = ImportError ->
     run_body w l
     = (l, Ret {| healthy := false;
                  issues := [MissingRequiredDependency (exn_msg e)];
                  warnings := [] |}))
  /\ (forall h, (run_body w l).2 = Ret h ->
        healthy h = required_imports_ok w
        /\ (issues h = [] <-> healthy h = true))
  /\ (required_imports_ok w = true -> memory_probe_answers w = true ->
      exists ws, (run_body w l).2
                 = Ret {| healthy := true; issues := []; warnings := ws |})
  /\ (required_imports_ok w = true ->
      forall h, (run_body w l).2 = Ret h ->
        (forall p, import_psutil w = Ret tt -> virtual_memory_percent w = Ret p ->
                   Qgtb p 90 = true -> HighMemoryUsage p ∈ warnings h)
        /\ (forall d, import_psutil w = Ret tt -> disk_usage_percent w = Ret d ->
                      Qgtb d 90 = true -> LowDiskSpace d ∈ warnings h)).
Proof.
  set (s0 := {| hs := initial_status; hlog := l |}).
  assert (Hok : required_imports_ok w = true ->
            exists s' r, check_application_health_body w s0 = (s', r)
              /\ healthy (hs s') = true /\ issues (hs s') = []
              /\ match r with
                 | Ret _ =>
                     (forall p, import_psutil w = Ret tt ->
                        virtual_memory_percent w = Ret p ->
                        Qgtb p 90 = true -> HighMemoryUsage p ∈ warnings (hs s'))
                     /\ (forall d, import_psutil w = Ret tt ->
                           disk_usage_percent w = Ret d ->
                           Qgtb d 90 = true -> LowDiskSpace d ∈ warnings (hs s'))
                 | Raise e => memory_probe_answers w = false
                 end).
  { intros H. destruct (body_with_imports w s0 H) as [(Hh & Hi & _) Hr].
    destruct (check_application_health_body w s0) as [s' r]; simpl in *.
    exists s', r. repeat split; try assumption.
    destruct r; [ exact Hr | exact (proj2 Hr) ]. }
  split; [ | split; [ | split ] ].
  - intros e He Hc. unfold run_body.
    rewrite (body_missing_dependency w _ e He Hc). reflexivity.
  - intros h. unfold run_body. fold s0.
    destruct (required_imports_ok w) eqn:Hreq.
    + destruct (Hok eq_refl) as (s' & r & -> & Hh & Hi & _).
      destruct r; simpl; [ | discriminate ].
      intros [= <-]. rewrite Hh, Hi. repeat split.
    + destruct (first_import_failure w) as [e | ] eqn:Hf.
      * destruct e as [[] m].
        -- rewrite (body_missing_dependency w s0 _ Hf eq_refl). simpl.
           intros [= <-]. simpl. repeat split; discriminate.
        -- rewrite (body_import_crashes w s0 _ Hf eq_refl). simpl. discriminate.
      * apply imports_ok_iff_no_failure in Hf. congruence.
  - intros Hreq Hans. unfold run_body. fold s0.
    destruct (Hok Hreq) as (s' & r & -> & Hh & Hi & Hr).
    destruct r; simpl; [ | congruence ].
    exists (warnings (hs s')). destruct s' as [[? ? ?] ?]; simpl in *. congruence.
  - intros Hreq h. unfold run_body. fold s0.
    destruct (Hok Hreq) as (s' & r & -> & Hh & Hi & Hr).
    destruct r; simpl; [ | discriminate ].
    intros [= <-]. exact Hr.
Qed.

(** Memory at 97 % and the disk at 93 %: four warnings, still healthy. *)
Example pressure_is_not_fatal :
  (run_body Scenario.under_pressure []).2
  = Ret {| healthy := true;
           issues := [];
           warnings := [ HighMemoryUsage (97 # 1);
                         CriticalMemoryUsage;
                         MemoryOptimizationNotAvailable;
                         LowDiskSpace (93 # 1) ] |}.
Proof. reflexivity. Qed.

Example missing_docx_is_fatal :
  (run_body Scenario.docx_missing []).2
  = Ret {| healthy := false;
           issues := [MissingRequiredDependency "No module named 'docx'"];
           warnings := [] |}.
Proof. reflexivity. Qed.

End HealthFacts.

(** ** Health check: caching and error handling *)

Module HealthCacheFacts.

Import Health.

Ltac run_health :=
  unfold check_application_health, cache_data, store, handle_errors,
    handle_errors_enhanced, handle_errors_fallback, with_structured_logging,
    check_application_health_func,
    Py.try_except, Py.bind, Py.call, Py.ret, Py.modify, Py.get, Py.raise,
    Py.except_Exception; simpl.

(** A fresh entry is handed back as stored; the body does not run. *)
Lemma call_hits (eh : bool) (w : world) (now : Z) (args : option bool)
    (s : state) (v : returned) :
  lookup_fresh 300 now args (entries s) = Some v ->
  check_application_health eh w now args s
  = ({| slog := slog s; entries := entries s;
        wrapper_calls := S (wrapper_calls s); body_runs := body_runs s |},
     Ret v).
Proof. intros H. run_health. now rewrite H. Qed.

(** Without a fresh entry a call without arguments runs the body once
    and stores what [handle_errors] returns. *)
Lemma call_misses (eh : bool) (w : world) (now : Z) (s : state) :
  lookup_fresh 300 now None (entries s) = None ->
  exists l,
    check_application_health eh w now None s
    = ({| slog := l;
          entries := {| key := None; stored_at := now;
                        value := fresh_snapshot eh w (slog s) |}
                     :: filter (fun e => negb (same_key (key e) None)) (entries s);
          wrapper_calls := S (wrapper_calls s);
          body_runs := S (body_runs s) |},
       Ret (fresh_snapshot eh w (slog s))).
Proof.
  intros H. run_health. rewrite H. unfold fresh_snapshot. simpl.
  destruct eh; simpl;
    destruct (run_body w (slog s)) as [l [h | e]]; simpl; eexists; reflexivity.
Qed.

(** Entries stored for the call without arguments are gone after
    filtering them out. *)
Lemma lookup_fresh_filtered (now : Z) (es : list entry) :
  lookup_fresh 300 now None (filter (fun e => negb (same_key (key e) None)) es) = None.
Proof.
  induction es as [ | e es IH ]; [ reflexivity | ].
  rewrite filter_cons.
  destruct e as [[b | ] t v]; simpl; exact IH.
Qed.

(** A call that passes an argument never runs the sub-checks. *)
Lemma call_with_argument_skips_body (eh : bool) (w : world) (now : Z) (b : bool)
    (s : state) :
  body_runs (check_application_health eh w now (Some b) s).1 = body_runs s.
Proof.
  run_health.
  destruct (lookup_fresh 300 now (Some b) (entries s)); simpl; [ reflexivity | ].
  destruct eh; reflexivity.
Qed.

(** No exception leaves the decorated function. *)
Lemma no_exception_escapes (eh : bool) (w : world) (now : Z) (args : option bool)
    (s : state) :
  exists r, (check_application_health eh w now args s).2 = Ret r.
Proof.
  run_health.
  destruct (lookup_fresh 300 now args (entries s)); simpl; [ eauto | ].
  destruct args as [b | ]; simpl.
  - destruct eh; simpl; eauto.
  - destruct eh; simpl;
      destruct (run_body w (slog s)) as [l [h | e]]; simpl; eauto.
Qed.

(** C7, as the code has it.  Starting with nothing cached for the call
    without arguments at time [t1]: the first call runs the sub-checks
    once; a second call inside the 300 second window returns the same
    snapshot without running them again, whatever the world has become; a
    second call after the window runs them again on the world of that
    moment.  The function takes no argument: a call that passes one (a
    would-be [forceRefresh]) never runs the sub-checks. *)
Theorem health_check_is_cached_for_ttl (eh : bool) (w1 w2 : world) (t1 t2 : Z)
    (s : state) :
  lookup_fresh 300 t1 None (entries s) = None ->
  let first := check_application_health eh w1 t1 None s in
  let second := check_application_health eh w2 t2 None first.1 in
  first.2 = Ret (fresh_snapshot eh w1 (slog s))
  /\ body_runs first.1 = S (body_runs s)
  /\ ((t1 <= t2 < t1 + 300)%Z ->
      second.2 = first.2 /\ body_runs second.1 = body_runs first.1)
  /\ ((t1 + 300 < t2)%Z ->
      second.2 = Ret (fresh_snapshot eh w2 (slog first.1))
      /\ body_runs second.1 = S (body_runs first.1))
  /\ (forall (b : bool) (t : Z) (s' : state),
        body_runs (check_application_health eh w2 t (Some b) s').1 = body_runs s').
Proof.
  intros Hmiss first second. subst second first.
  destruct (call_misses eh w1 t1 s Hmiss) as [l1 ->]. simpl.
  split; [ reflexivity | split; [ reflexivity | split; [ | split ] ] ].
  - intros [_ Hlt].
    rewrite (call_hits eh w2 t2 None _ (fresh_snapshot eh w1 (slog s))).
    + split; reflexivity.
    + simpl. apply Z.ltb_lt in Hlt. now rewrite Hlt.
  - intros Hgt.
    match goal with |- context [check_application_health eh w2 t2 None ?s1] =>
      destruct (call_misses eh w2 t2 s1) as [l2 ->] end.
    + simpl. assert (Hge : (t2 <? t1 + 300)%Z = false) by (apply Z.ltb_ge; lia).
      rewrite Hge. apply lookup_fresh_filtered.
    + split; reflexivity.
  - intros b t s'. apply call_with_argument_skips_body.
Qed.

(** A healthy snapshot is computed at time 0; [docx] disappears; the call
    at time 100 still returns the snapshot of time 0. *)
Lemma health_check_is_cached_for_ttl_witness :
  (check_application_health false Scenario.docx_missing 100 None
     (check_application_health false Scenario.all_quiet 0 None empty_state).1).2
  = (check_application_health false Scenario.all_quiet 0 None empty_state).2.
Proof.
  refine (proj1 (proj1 (proj2 (proj2
    (health_check_is_cached_for_ttl false Scenario.all_quiet Scenario.docx_missing
       0 100 empty_state eq_refl))) _)).
  lia.
Defined.

(** C7 as stated fails: there is no [forceRefresh].  A snapshot is cached
    at time 0; at time 10 [docx] is missing and the caller passes
    [forceRefresh=True].  The sub-checks do not run and the caller does
    not get the snapshot of the present world: the call raises
    [TypeError] inside [handle_errors], whose fallback returns [None]
    (and whose enhanced variant returns [return_on_error]). *)
Lemma force_refresh_is_not_accepted :
  let s1 := (check_application_health false Scenario.all_quiet 0 None empty_state).1 in
  let forced := check_application_health false Scenario.docx_missing 10 (Some true) s1 in
  forced.2 = Ret ReturnedNone
  /\ body_runs forced.1 = body_runs s1
  /\ forced.2 <> Ret (fresh_snapshot false Scenario.docx_missing (slog s1))
  /\ (check_application_health true Scenario.docx_missing 10 (Some true)
        (check_application_health true Scenario.all_quiet 0 None empty_state).1).2
     = Ret return_on_error.
Proof.
  split; [ reflexivity | split; [ reflexivity | split; [ | reflexivity ] ] ].
  discriminate.
Qed.

End HealthCacheFacts.

(** ** [main]: the health check at entry *)

Module MainFacts.

Import Main.

Ltac run_main :=
  unfold main_health_check, performance_settings, header_status, bulk_status,
    set_session, emit, in_health, session_get,
    Py.try_except, Py.bind, Py.call, Py.ret, Py.modify, Py.get, Py.raise;
  simpl.

Lemma show_issues_frame (l : list Health.issue) (a : app) :
  (show_issues l a).2 = Ret tt
  /\ session_state (show_issues l a).1 = session_state a
  /\ health (show_issues l a).1 = health a
  /\ ui (show_issues l a).1 = ui a ++ map st_error_issue l.
Proof.
  revert a. induction l as [ | i l IH ]; intros a; simpl.
  - repeat split. now rewrite app_nil_r.
  - unfold Py.bind, emit, Py.modify. simpl.
    destruct (IH {| session_state := session_state a;
                    ui := ui a ++ [st_error_issue i];
                    health := health a |}) as (H1 & H2 & H3 & H4).
    repeat split; try assumption.
    rewrite H4. simpl. now rewrite <- app_assoc.
Qed.

Lemma marked_debug_mode (s : gmap string pyval) :
  marked s !! "debug_mode" = s !! "debug_mode".
Proof.
  unfold marked. destruct (s !! "async_initialized"); [ reflexivity | ].
  now rewrite lookup_insert_ne.
Qed.

(** C9.  In every run of [main] in which ['debug_mode'] is absent from
    the session state or [False], whatever the modules and probes of the
    health check would do: [check_application_health] is not called (its
    call counter, its run counter and its cache are as before), the
    verdict is the constant [{'healthy': True, 'issues': [], 'warnings':
    []}], nothing is rendered by these lines and control passes line 534
    into the main flow. *)
Theorem fast_mode_never_runs_health_check (c : config) (w : Health.world) (now : Z)
    (a : app) :
  session_state a !! "debug_mode" = None
  \/ session_state a !! "debug_mode" = Some (VBool false) ->
  (main_health_check c w now a).2 = Ret (Entered fast_mode_status)
  /\ health (main_health_check c w now a).1 = health a
  /\ Health.wrapper_calls (health (main_health_check c w now a).1)
     = Health.wrapper_calls (health a)
  /\ Health.body_runs (health (main_health_check c w now a).1)
     = Health.body_runs (health a)
  /\ ui (main_health_check c w now a).1 = ui a.
Proof.
  intros Hdebug.
  assert (Hfalsy : truthy (match marked (session_state a) !! "debug_mode" with
                           | Some v => v
                           | None => VBool false
                           end) = false).
  { rewrite marked_debug_mode. destruct Hdebug as [-> | ->]; reflexivity. }
  unfold marked in Hfalsy. run_main.
  destruct (session_state a !! "async_initialized"); simpl;
    rewrite Hfalsy; simpl; repeat split; reflexivity.
Qed.

(** An empty session and a missing [docx]: the run passes line 534. *)
Lemma fast_mode_never_runs_health_check_witness :
  (main_health_check Scenario.fallbacks_only Scenario.docx_missing 0 (new_app ∅)).2
  = Ret (Entered fast_mode_status).
Proof.
  refine (proj1 (fast_mode_never_runs_health_check
                   Scenario.fallbacks_only Scenario.docx_missing 0 (new_app ∅) _)).
  left. reflexivity.
Defined.

(** In debug mode the same missing module halts the run (line 534), with
    the failure and the issue rendered. *)
Example debug_mode_halts_on_missing_dependency :
  main_health_check Scenario.fallbacks_only Scenario.docx_missing 0 Scenario.debug_session
  = ({| session_state := <["async_initialized" := VNone]> {[ "debug_mode" := VBool true ]};
        ui := [ st_error "Application Health Check Failed";
                st_error_issue
                  (Health.MissingRequiredDependency "No module named 'docx'") ];
        health := (Health.check_application_health false Scenario.docx_missing 0 None
                     Health.empty_state).1 |},
     Ret Halted).
Proof. reflexivity. Qed.

(** Whenever the value received from the health check says
    [healthy = False], [main] renders the failure and returns. *)
Lemma unhealthy_snapshot_halts (c : config) (w : Health.world) (now : Z) (a : app)
    (v : pyval) (r : Health.returned) :
  session_state a !! "debug_mode" = Some v ->
  truthy v = true ->
  (Health.check_application_health (ERROR_HANDLING_AVAILABLE c) w now None (health a)).2
  = Ret r ->
  Health.get_healthy r = Ret false ->
  (main_health_check c w now a).2 = Ret Halted
  /\ exists l, Health.get_issues r = Ret l
       /\ ui (main_health_check c w now a).1
          = ui a ++ st_error "Application Health Check Failed" :: map st_error_issue l.
Proof.
  intros Hv Ht Hr Hh.
  assert (Hdebug : truthy (match marked (session_state a) !! "debug_mode" with
                           | Some v => v
                           | None => VBool false
                           end) = true).
  { rewrite marked_debug_mode, Hv. exact Ht. }
  unfold marked in Hdebug. run_main.
  assert (Hi : exists l, Health.get_issues r = Ret l).
  { destruct r; simpl in *; try discriminate; eauto. }
  destruct Hi as [l Hl].
  destruct (session_state a !! "async_initialized"); simpl;
    rewrite Hdebug; simpl;
    destruct (Health.check_application_health _ w now None (health a)) as [h r'];
    simpl in *; subst r'; simpl; rewrite Hh; simpl; rewrite Hl; simpl.
  all: match goal with |- context [show_issues ?l0 ?a0] =>
         destruct (show_issues_frame l0 a0) as (H1 & H2 & H3 & H4);
         destruct (show_issues l0 a0) as [a1 r1];
         simpl in *; subst r1; simpl; split; [ reflexivity | ];
         exists l0; split; [ reflexivity | ]; rewrite H4; simpl;
         now rewrite <- app_assoc
       end.
Qed.

(** C5 on the failing run.  [enhancements.error_handling_enhanced] is
    not installed, debug mode is on and [psutil.virtual_memory()] raises
    [OSError].  The fallback [handle_errors] returns [None] to the
    caller, not the configured [return_on_error]; [main] then raises
    [TypeError] at [health_status['healthy']] (line 530), renders
    nothing, and leaves through its own error wrapper. *)
Theorem fallback_handler_hands_None_to_main :
  (Health.check_application_health false Scenario.memory_probe_raises 0 None
     Health.empty_state).2
  = Ret Health.ReturnedNone
  /\ (main_health_check Scenario.fallbacks_only Scenario.memory_probe_raises 0
        Scenario.debug_session).2
     = Raise (Exn OtherException "TypeError: 'NoneType' object is not subscriptable")
  /\ ui (main_health_check Scenario.fallbacks_only Scenario.memory_probe_raises 0
           Scenario.debug_session).1
     = []
  /\ (Health.check_application_health true Scenario.memory_probe_raises 0 None
        Health.empty_state).2
     = Ret Health.return_on_error.
Proof. repeat split. Qed.

(** Lines 519-534 touch the session only at line 521. *)
Lemma main_health_check_session (c : config) (w : Health.world) (now : Z) (a : app) :
  session_state (main_health_check c w now a).1 = marked (session_state a).
Proof.
  unfold marked. run_main.
  destruct (session_state a !! "async_initialized"); simpl.
  all: match goal with |- context [truthy ?v] => destruct (truthy v) end; simpl;
       try reflexivity.
  all: destruct (Health.check_application_health _ w now None (health a)) as [h [r | e]];
       simpl; try reflexivity;
       destruct (Health.get_healthy r) as [[] | e]; simpl; try reflexivity;
       destruct (Health.get_issues r) as [l | e]; simpl; try reflexivity.
  all: match goal with |- context [show_issues ?l0 ?a0] =>
         destruct (show_issues_frame l0 a0) as (H1 & H2 & H3 & H4);
         destruct (show_issues l0 a0) as [a1 r1];
         simpl in *; subst r1; simpl; exact H2
       end.
Qed.

(** C10.  When the async-processing module is absent,
    [initialize_async_services] is the fallback that returns [True].
    Pressing "Retry Async Init" (drawn while ['async_initialized'] is
    falsy) therefore stores [True] in ['async_initialized'] and reruns
    the script; in the next run the flag survives the start of [main],
    and the header, the bulk tab and the settings tab all report the
    high-performance (async) mode as active. *)
Theorem retry_without_async_module_reports_async (c : config) (a : app) :
  ASYNC_PROCESSING_AVAILABLE c = false ->
  truthy (session_get a "async_initialized" VNone) = false ->
  initialize_async_services c = Ret (VBool true)
  /\ (performance_settings c true a).2 = Ret Rerun
  /\ session_state (performance_settings c true a).1
     = <["async_initialized" := VBool true]> (session_state a)
  /\ forall (w : Health.world) (now : Z),
       let next := (main_health_check c w now (performance_settings c true a).1).1 in
       session_state next !! "async_initialized" = Some (VBool true)
       /\ ui (header_status next).1 = ui next ++ [st_success "High Performance"]
       /\ ui (bulk_status next).1
          = ui next ++ [st_success "High Performance Mode Active"]
       /\ ui (performance_settings c false next).1
          = ui next
            ++ [ st_success
                   "Async processing enabled - Experience up to 6x faster processing!";
                 st_metric "Speed Boost" "6x faster";
                 st_metric "Status" "Active" ].
Proof.
  intros Hasync Hfalsy.
  assert (Hinit : initialize_async_services c = Ret (VBool true))
    by (unfold initialize_async_services; now rewrite Hasync).
  assert (Hretry : performance_settings c true a
                   = ({| session_state := <["async_initialized" := VBool true]> (session_state a);
                         ui := ui a
                               ++ [st_error "Async processing disabled - Performance may be slower"]
                               ++ [st_warning "Running in standard mode. Some operations may take longer."]
                               ++ [st_toast "Async services initialized successfully!"];
                         health := health a |},
                      Ret Rerun)).
  { unfold session_get in Hfalsy. run_main. rewrite Hfalsy. simpl.
    rewrite Hinit. simpl. now rewrite <- !app_assoc. }
  rewrite Hretry. cbn [fst snd session_state].
  split; [ exact Hinit | split; [ reflexivity | split; [ reflexivity | ] ] ].
  intros w now. set (next := (main_health_check c w now _).1).
  assert (Hnext : session_state next !! "async_initialized" = Some (VBool true)).
  { subst next. rewrite main_health_check_session. unfold marked. cbn [session_state].
    rewrite lookup_insert_eq. apply lookup_insert_eq. }
  split; [ exact Hnext | ].
  run_main. rewrite Hnext. simpl.
  split; [ reflexivity | split; [ reflexivity | ] ].
  now rewrite <- !app_assoc.
Qed.

(** Fallbacks only, a session that has just started: after the retry the
    flag is [True]. *)
Lemma retry_without_async_module_reports_async_witness :
  session_state (performance_settings Scenario.fallbacks_only true
                   Scenario.async_not_initialized).1
  = <["async_initialized" := VBool true]> (session_state Scenario.async_not_initialized).
Proof.
  exact (proj1 (proj2 (proj2
    (retry_without_async_module_reports_async
       Scenario.fallbacks_only Scenario.async_not_initialized eq_refl eq_refl)))).
Defined.

End MainFacts.

(** ** Bulk processing progress *)

Module BulkFacts.

Import Bulk.

Local Open Scope Q_scope.

Lemma progress_values_app (l1 l2 : list ui_event) :
  progress_values (l1 ++ l2) = (progress_values l1 ++ progress_values l2)%list.
Proof.
  induction l1 as [ | [v | t | d] l1 IH ]; simpl; congruence.
Qed.

(** The loop reports [fraction i n] for each index it visits. *)
Lemma progress_values_loop (n i : nat) (files : list uploaded_file) :
  progress_values (process_files n i files)
  = map (fun j => fraction j n) (seq i (length files)).
Proof.
  revert i. induction files as [ | f files IH ]; intros i; simpl.
  - reflexivity.
  - now rewrite IH.
Qed.

Lemma fraction_mono (i j n : nat) :
  (i <= j)%nat -> fraction i n <= fraction j n.
Proof.
  intros H. unfold fraction, Qdiv.
  apply Qmult_le_compat_r.
  - rewrite <- Zle_Qle. lia.
  - apply Qinv_le_0_compat. change 0 with (inject_Z 0). rewrite <- Zle_Qle. lia.
Qed.

Lemma fraction_nonneg (i n : nat) : 0 <= fraction i n.
Proof.
  unfold fraction, Qdiv. apply Qmult_le_0_compat.
  - change 0 with (inject_Z 0). rewrite <- Zle_Qle. lia.
  - apply Qinv_le_0_compat. change 0 with (inject_Z 0). rewrite <- Zle_Qle. lia.
Qed.

(** The last index gives the whole: [n / n]. *)
Lemma fraction_last (n : nat) : (0 < n)%nat -> fraction (n - 1) n == 1.
Proof.
  intros H. unfold fraction. replace (n - 1 + 1)%nat with n by lia.
  apply Qmult_inv_r. intros E.
  unfold Qeq in E. simpl in E. lia.
Qed.

Lemma fraction_le_1 (i n : nat) : (i < n)%nat -> fraction i n <= 1.
Proof.
  intros H. rewrite <- (fraction_last n) by lia. apply fraction_mono. lia.
Qed.

Lemma nondecreasing_single (x : Q) : nondecreasing [x].
Proof. intros [ | i] a b Ha Hb; simpl in *; discriminate. Qed.

Lemma nondecreasing_cons (x y : Q) (l : list Q) :
  x <= y -> nondecreasing (y :: l) -> nondecreasing (x :: y :: l).
Proof.
  intros Hxy Hl [ | i] a b Ha Hb; simpl in *.
  - injection Ha as <-. injection Hb as <-. exact Hxy.
  - exact (Hl i a b Ha Hb).
Qed.

(** The values of the loop from index [i] on, followed by the final
    update, never decrease. *)
Lemma loop_then_final_nondecreasing (n m i : nat) :
  (i + m = n)%nat ->
  nondecreasing (map (fun j => fraction j n) (seq i m) ++ [1])%list.
Proof.
  revert i. induction m as [ | m IH ]; intros i H; simpl.
  - apply nondecreasing_single.
  - specialize (IH (S i) ltac:(lia)).
    destruct m as [ | m ]; simpl in *.
    + apply nondecreasing_cons; [ apply fraction_le_1; lia | exact IH ].
    + apply nondecreasing_cons; [ apply fraction_mono; lia | exact IH ].
Qed.

(** C6.  For every non-empty list of uploaded files, the progress values
    drawn by the bulk loop are [0] (the new bar), then [(i+1)/n] for
    [i = 0 .. n-1], then the final update; no value is smaller than the
    one before it; the final value is exactly [1]; and the last value of
    the loop, [n/n], already equals [1]. *)
Theorem bulk_progress_never_decreases_and_ends_at_1 (uploaded_files : list uploaded_file) :
  uploaded_files <> [] ->
  let n := length uploaded_files in
  let values := progress_values (bulk_processing uploaded_files) in
  values = (0 :: map (fun i => fraction i n) (seq 0 n) ++ [1])%list
  /\ nondecreasing values
  /\ last values = Some 1
  /\ fraction (n - 1) n == 1.
Proof.
  intros Hne n values.
  assert (Hn : (0 < n)%nat) by (subst n; destruct uploaded_files; simpl; [ congruence | lia ]).
  assert (Hv : values = (0 :: map (fun i => fraction i n) (seq 0 n) ++ [1])%list).
  { subst values. unfold bulk_processing. simpl.
    rewrite progress_values_app, progress_values_loop. reflexivity. }
  split; [ exact Hv | rewrite Hv; split; [ | split ] ].
  - pose proof (loop_then_final_nondecreasing n n 0 eq_refl) as H.
    destruct n as [ | n ]; [ lia | ]. simpl in *.
    apply nondecreasing_cons; [ apply fraction_nonneg | exact H ].
  - rewrite app_comm_cons. apply last_snoc.
  - now apply fraction_last.
Qed.

(** The reading over the rationals agrees with binary64 arithmetic: for
    every batch of 1 to 300 files the float values never decrease and the
    last value of the loop is the float [1.0]. *)
Example float_progress_up_to_300_files :
  forallb (fun n => float_nondecreasing (float_values n)
                    && PrimFloat.eqb (float_fraction (n - 1) n) (float_of_nat 1))
          (seq 1 300)
  = true.
Proof. vm_compute. reflexivity. Qed.

(** Three files: 0, 1/3, 2/3, 3/3, 1. *)
Lemma bulk_progress_never_decreases_and_ends_at_1_witness :
  progress_values (bulk_processing Scenario.three_files)
  = [0; fraction 0 3; fraction 1 3; fraction 2 3; 1]%list
  /\ nondecreasing (progress_values (bulk_processing Scenario.three_files))
  /\ last (progress_values (bulk_processing Scenario.three_files)) = Some 1
  /\ fraction 2 3 == 1.
Proof.
  apply (bulk_progress_never_decreases_and_ends_at_1 Scenario.three_files).
  discriminate.
Defined.

End BulkFacts.

(** ** Health check: bounds and the handling of failing probes *)

Module HealthProbeFacts.

Import Health HealthProbe.

Ltac run_all :=
  unfold run_body, check_application_health_body, resource_checks, memory_check,
    automatic_cleanup, disk_check, append_warning, append_issue, set_healthy,
    logger, monitor_warning, required_imports_ok, memory_probe_answers, imported,
    Py.try_except, Py.bind, Py.call, Py.ret, Py.modify, Py.get, Py.raise,
    Py.orelse, Py.except_ImportError, Py.except_Exception in *;
  simpl in *.

(** Case analysis on the innermost outcome the goal still branches on. *)
Ltac split_cases :=
  repeat (match goal with
          | |- context [match ?x with _ => _ end] =>
              lazymatch x with
              | context [match _ with _ => _ end] => fail
              | _ => destruct x eqn:?
              end
          end; simpl in *; try discriminate).

(** X1.  A dict returned by the health check holds at most one issue and
    at most five warnings. *)
Theorem health_report_is_bounded (w : world) (l : log) (h : health_status) :
  (run_body w l).2 = Ret h ->
  length (issues h) <= 1 /\ length (warnings h) <= 5.
Proof.
  run_all. split_cases; intros [= <-]; simpl; split; lia.
Qed.

Lemma health_report_is_bounded_witness :
  length (issues {| healthy := true; issues := [];
                    warnings := [ HighMemoryUsage (97 # 1); CriticalMemoryUsage;
                                  MemoryOptimizationNotAvailable;
                                  LowDiskSpace (93 # 1) ] |}) <= 1
  /\ length (warnings {| healthy := true; issues := [];
                         warnings := [ HighMemoryUsage (97 # 1); CriticalMemoryUsage;
                                       MemoryOptimizationNotAvailable;
                                       LowDiskSpace (93 # 1) ] |}) <= 5.
Proof.
  exact (health_report_is_bounded Scenario.under_pressure [] _ eq_refl).
Defined.

(** X2.  A memory optimizer that raises does not fail the health check:
    with memory above 90 % and the optimizer installed, the exception is
    logged as a warning, "Memory cleanup failed" is appended after the
    memory warnings, and the function goes on to the disk check and
    returns a healthy dict. *)
Theorem cleanup_failure_becomes_a_warning (w : world) (l : log) (p : Q) (e : exn) :
  required_imports_ok w = true ->
  import_psutil w = Ret tt ->
  virtual_memory_percent w = Ret p ->
  Qgtb p 90 = true ->
  MEMORY_OPTIMIZER_AVAILABLE w = true ->
  optimize_memory w = Raise e ->
  exists disk_warnings,
    run_body w l
    = (l ++ [(WARNING, "Memory optimization failed: " +:+ exn_msg e)],
       Ret {| healthy := true;
              issues := [];
              warnings := monitor_warning w
                          ++ [ HighMemoryUsage p;
                               if Qgtb p 95 then CriticalMemoryUsage else TryFewerFiles;
                               MemoryCleanupFailed ]
                          ++ disk_warnings |}).
Proof.
  intros Hreq Hps Hmem H90 Havail Hopt. run_all.
  rewrite Hps, Hmem, Havail, Hopt in *. simpl. rewrite H90. simpl.
  destruct (import_streamlit w) as [[] | ?]; [ | discriminate ].
  destruct (import_docx w) as [[] | ?]; [ | discriminate ].
  destruct (import_io w) as [[] | ?]; [ | discriminate ].
  simpl.
  destruct (negb (PERFORMANCE_MONITOR_AVAILABLE w)
            || negb (truthy (performance_monitor w))); simpl;
    destruct (Qgtb p 95); simpl;
    destruct (disk_usage_percent w) as [d | [[] m]]; simpl;
    try destruct (Qgtb d 90); simpl;
    first [ now exists [LowDiskSpace d]
          | exists []; now rewrite ?app_nil_r
          | now exists [DiskSpaceCheckFailed m] ].
Qed.

Lemma cleanup_failure_becomes_a_warning_witness :
  exists disk_warnings,
    run_body optimizer_crashes []
    = ([(WARNING, "Memory optimization failed: RuntimeError: gc failed")],
       Ret {| healthy := true;
              issues := [];
              warnings := monitor_warning optimizer_crashes
                          ++ [ HighMemoryUsage (97 # 1); CriticalMemoryUsage;
                               MemoryCleanupFailed ]
                          ++ disk_warnings |}).
Proof.
  exact (cleanup_failure_becomes_a_warning optimizer_crashes [] (97 # 1) _
           eq_refl eq_refl eq_refl eq_refl eq_refl eq_refl).
Defined.

(** X3.  The memory optimizer is consulted only above 90 %: when the
    memory probe does not report more than 90 %, the health check gives
    the same result and writes the same log whichever optimizer is
    installed and whatever it would do. *)
Theorem optimizer_is_consulted_only_above_90 (w : world) (l : log)
    (available : bool) (outcome : result pyval) :
  (forall p, virtual_memory_percent w = Ret p -> Qgtb p 90 = false) ->
  run_body (with_optimizer w available outcome) l = run_body w l.
Proof.
  intros Hlow. run_all.
  destruct (virtual_memory_percent w) as [p | e]; [ | reflexivity ].
  rewrite (Hlow p eq_refl). reflexivity.
Qed.

Lemma optimizer_is_consulted_only_above_90_witness :
  run_body (with_optimizer Scenario.all_quiet true
              (Raise (Exn OtherException "RuntimeError: gc failed"))) []
  = run_body Scenario.all_quiet [].
Proof.
  apply (optimizer_is_consulted_only_above_90 Scenario.all_quiet []).
  intros p [= <-]. reflexivity.
Defined.

(** X4.  A disk probe that raises (anything but [ImportError]) is
    reported as the last warning, "Disk space check failed: ...", and
    the health check still returns a healthy dict without issues. *)
Theorem disk_probe_failure_is_a_warning (w : world) (l : log) (e : exn) :
  required_imports_ok w = true ->
  memory_probe_answers w = true ->
  import_psutil w = Ret tt ->
  disk_usage_percent w = Raise e ->
  exn_cls e = OtherException ->
  exists h,
    (run_body w l).2 = Ret h
    /\ healthy h = true
    /\ issues h = []
    /\ last (warnings h) = Some (DiskSpaceCheckFailed (exn_msg e)).
Proof.
  intros Hreq Hans Hps Hdisk Hcls.
  destruct e as [c m]. simpl in Hcls. subst c.
  revert Hreq Hans.
  unfold run_body, check_application_health_body, resource_checks, memory_check,
    automatic_cleanup, disk_check, append_warning, logger,
    required_imports_ok, memory_probe_answers, imported,
    Py.try_except, Py.bind, Py.call, Py.ret, Py.modify,
    Py.orelse, Py.except_ImportError, Py.except_Exception.
  rewrite Hps, Hdisk. simpl.
  destruct (import_streamlit w) as [[] | ?]; [ | discriminate ].
  destruct (import_docx w) as [[] | ?]; [ | discriminate ].
  destruct (import_io w) as [[] | ?]; [ | discriminate ].
  simpl. intros _.
  destruct (virtual_memory_percent w) as [p | [[] m']]; simpl; try discriminate;
    intros _;
    destruct (negb (PERFORMANCE_MONITOR_AVAILABLE w)
              || negb (truthy (performance_monitor w))); simpl.
  all: try (destruct (Qgtb p 90); simpl;
            [ destruct (Qgtb p 95); simpl;
              (destruct (MEMORY_OPTIMIZER_AVAILABLE w); simpl;
               [ destruct (optimize_memory w) as [c | e]; simpl;
                 [ destruct (py_getitem c "status") as [st | e]; simpl;
                   [ destruct (is_completed st); simpl;
                     [ destruct (py_getitem c "memory_saved_mb") as [mb | e]; simpl;
                       [ destruct (format_1f mb) as [q | e]; simpl | ] | ] | ] | ] | ])
            | ]).
  all: eexists; (split; [ reflexivity | split; [ reflexivity | split; reflexivity ] ]).
Qed.

Lemma disk_probe_failure_is_a_warning_witness :
  exists h,
    (run_body disk_probe_raises []).2 = Ret h
    /\ healthy h = true
    /\ issues h = []
    /\ last (warnings h)
       = Some (DiskSpaceCheckFailed
                 "FileNotFoundError: [Errno 2] No such file or directory: '/'").
Proof.
  exact (disk_probe_failure_is_a_warning disk_probe_raises [] _
           eq_refl eq_refl eq_refl eq_refl eq_refl).
Defined.

(** X5.  Without psutil both probes are off: the memory check appends
    "psutil not available", the disk check stays silent, and the health
    check returns a healthy dict whose warnings are the monitor's (if
    any) followed by that one entry; the log is untouched. *)
Theorem missing_psutil_disables_both_probes (w : world) (l : log) (e : exn) :
  required_imports_ok w = true ->
  import_psutil w = Raise e ->
  exn_cls e = ImportError ->
  run_body w l
  = (l, Ret {| healthy := true;
               issues := [];
               warnings := monitor_warning w ++ [PsutilNotAvailable] |}).
Proof.
  intros Hreq Hps Hcls.
  destruct e as [c m]. simpl in Hcls. subst c.
  run_all. rewrite Hps in *. simpl.
  destruct (import_streamlit w) as [[] | ?]; [ | discriminate ].
  destruct (import_docx w) as [[] | ?]; [ | discriminate ].
  destruct (import_io w) as [[] | ?]; [ | discriminate ].
  simpl.
  destruct (negb (PERFORMANCE_MONITOR_AVAILABLE w)
            || negb (truthy (performance_monitor w))); reflexivity.
Qed.

Lemma missing_psutil_disables_both_probes_witness :
  run_body no_psutil []
  = ([], Ret {| healthy := true;
                issues := [];
                warnings := [PerformanceMonitorNotAvailable; PsutilNotAvailable] |}).
Proof.
  exact (missing_psutil_disables_both_probes no_psutil [] _ eq_refl eq_refl eq_refl).
Defined.

End HealthProbeFacts.

(** ** Lazy getters: what is cached and what is not *)

Module LazyFacts.

Import Lazy.

Ltac run_lazy :=
  unfold get_secure_ui_components, Py.bind, Py.get, Py.modify, Py.call, Py.ret; simpl.

Lemma secure_get_None (w : world) (g : globals) :
  _secure_ui_components g = None ->
  import_secure_components w (secure_imports g) = Ret tt ->
  secure_factory w (factory_calls g) = Ret None ->
  get_secure_ui_components w g
  = ({| _secure_ui_components := None;
        secure_imports := S (secure_imports g);
        factory_calls := S (factory_calls g) |},
     Ret None).
Proof. intros Hg Hi Hf. run_lazy. rewrite Hg. simpl. rewrite Hi. simpl. now rewrite Hf. Qed.

(** X6.  [get_secure_ui_components] does not cache [None]: as long as the
    imported factory answers [None], every call imports and invokes the
    factory again, so [n] calls cost [n] invocations, return [None] each
    time and leave the global unset. *)
Theorem None_is_never_cached (w : world) (n : nat) (g : globals) :
  _secure_ui_components g = None ->
  (forall k, k < n ->
     import_secure_components w (secure_imports g + k) = Ret tt
     /\ secure_factory w (factory_calls g + k) = Ret None) ->
  (calls w n g).2 = replicate n (Ret None)
  /\ factory_calls (calls w n g).1 = factory_calls g + n
  /\ _secure_ui_components (calls w n g).1 = None.
Proof.
  revert g. induction n as [ | n IH ]; intros g Hg Hall; simpl.
  - repeat split; auto.
  - destruct (Hall 0 ltac:(lia)) as [Hi Hf]. rewrite !Nat.add_0_r in *.
    rewrite (secure_get_None w g Hg Hi Hf).
    specialize (IH {| _secure_ui_components := None;
                      secure_imports := S (secure_imports g);
                      factory_calls := S (factory_calls g) |} eq_refl).
    simpl in IH.
    destruct IH as (H1 & H2 & H3).
    { intros k Hk. destruct (Hall (S k) ltac:(lia)) as [Hi' Hf'].
      rewrite !Nat.add_succ_r in *. split; assumption. }
    destruct (calls w n _) as [g2 rs]. simpl in *.
    repeat split; [ now rewrite H1 | lia | assumption ].
Qed.

Lemma None_is_never_cached_witness :
  (calls factory_gives_None 3 fresh_module).2 = replicate 3 (Ret None)
  /\ factory_calls (calls factory_gives_None 3 fresh_module).1 = 0 + 3
  /\ _secure_ui_components (calls factory_gives_None 3 fresh_module).1 = None.
Proof.
  apply (None_is_never_cached factory_gives_None 3 fresh_module).
  - reflexivity.
  - intros k _. split; reflexivity.
Defined.

Lemma secure_calls_cached (w : world) (n : nat) (g : globals) (r : ref) :
  _secure_ui_components g = Some r ->
  calls w n g = (g, replicate n (Ret (Some r))).
Proof.
  intros H. induction n as [ | n IH ]; simpl; [ reflexivity | ].
  assert (Hget : get_secure_ui_components w g = (g, Ret (Some r)))
    by (run_lazy; now rewrite H).
  now rewrite Hget, IH.
Qed.

(** X7.  [get_secure_ui_components] caches an object: once a call has
    returned an object [r], every one of [n] calls returns that same
    object and the factory has been invoked at most once. *)
Theorem secure_getter_caches_objects (w : world) (n : nat) (g : globals) (r : ref) :
  1 <= n ->
  (get_secure_ui_components w g).2 = Ret (Some r) ->
  (calls w n g).2 = replicate n (Ret (Some r))
  /\ factory_calls (calls w n g).1 <= S (factory_calls g).
Proof.
  intros Hn Hr. destruct n as [ | n ]; [ lia | ]. simpl.
  assert (Hset : _secure_ui_components (get_secure_ui_components w g).1 = Some r
                 /\ factory_calls (get_secure_ui_components w g).1 <= S (factory_calls g)).
  { revert Hr. run_lazy.
    destruct (_secure_ui_components g) as [r0 | ] eqn:Hg; simpl.
    - intros [= <-]. rewrite Hg. split; [ reflexivity | lia ].
    - destruct (import_secure_components w (secure_imports g)) as [[] | e]; simpl;
        [ | discriminate ].
      destruct (secure_factory w (factory_calls g)) as [v | e]; simpl; [ | discriminate ].
      intros [= ->]. split; [ reflexivity | lia ]. }
  destruct (get_secure_ui_components w g) as [g1 r1]. simpl in *. subst r1.
  destruct Hset as [Hset Hcount].
  rewrite (secure_calls_cached w n g1 r Hset). simpl. split; [ reflexivity | exact Hcount ].
Qed.

Lemma secure_getter_caches_objects_witness :
  (calls factory_gives_object 3 fresh_module).2 = replicate 3 (Ret (Some 7))
  /\ factory_calls (calls factory_gives_object 3 fresh_module).1 <= 1.
Proof.
  refine (secure_getter_caches_objects factory_gives_object 3 fresh_module 7 _ eq_refl).
  lia.
Defined.

End LazyFacts.

Module SingletonRetryFacts.

Import Singleton.

(** X8.  [get_ui_components] stores nothing when the constructor raises:
    as long as the import returns and [UIComponents()] raises, every call
    raises, the global stays [None] and the constructor is invoked once
    per call. *)
Theorem failing_constructor_runs_on_every_call (w : world) (n : nat) (g : globals) :
  _ui_components g = None ->
  (forall k, k < n ->
     import_UIComponents w (imports g + k) = Ret tt
     /\ exists e, UIComponents_init w (constructions g + k) = Raise e) ->
  constructions (calls w n g).1 = constructions g + n
  /\ _ui_components (calls w n g).1 = None
  /\ Forall (fun r => exists e, r = Raise e) (calls w n g).2.
Proof.
  revert g. induction n as [ | n IH ]; intros g Hg Hall; simpl.
  - repeat split; auto.
  - destruct (Hall 0 ltac:(lia)) as [Hi [e He]]. rewrite !Nat.add_0_r in *.
    assert (Hget : get_ui_components w g
                   = ({| _ui_components := None;
                         imports := S (imports g);
                         constructions := S (constructions g);
                         heap_next := heap_next g |}, Raise e)).
    { unfold get_ui_components, do_import, UIComponents, set_ui_components,
        Py.bind, Py.get, Py.modify, Py.call, Py.ret. simpl.
      rewrite Hg. simpl. rewrite Hi. simpl. rewrite He, Hg. reflexivity. }
    rewrite Hget.
    specialize (IH {| _ui_components := None;
                      imports := S (imports g);
                      constructions := S (constructions g);
                      heap_next := heap_next g |} eq_refl).
    simpl in IH.
    destruct IH as (H1 & H2 & H3).
    { intros k Hk. destruct (Hall (S k) ltac:(lia)) as [Hi' He'].
      rewrite !Nat.add_succ_r in *. split; assumption. }
    destruct (calls w n _) as [g2 rs]. simpl in *.
    repeat split; [ lia | assumption | ].
    constructor; [ eauto | assumption ].
Qed.

Lemma failing_constructor_runs_on_every_call_witness :
  constructions (calls constructor_raises 4 fresh_module).1 = 0 + 4.
Proof.
  refine (proj1 (failing_constructor_runs_on_every_call
                   constructor_raises 4 fresh_module eq_refl _)).
  intros k _. split; [ reflexivity | eexists; reflexivity ].
Defined.

End SingletonRetryFacts.

(** ** Session state: which keys exist after initialisation *)

Module SessionKeysFacts.

Import Session.

Lemma dom_set_default (s : session_state) (item : string * pyval) :
  dom (set_default s item) = dom s ∪ {[ item.1 ]}.
Proof.
  unfold set_default. destruct (s !! item.1) eqn:E.
  - assert (item.1 ∈ dom s) by (apply elem_of_dom; eauto). set_solver.
  - rewrite dom_insert_L. set_solver.
Qed.

Lemma dom_apply_defaults (defaults : list (string * pyval)) (s : session_state) :
  dom (apply_defaults defaults s) = dom s ∪ list_to_set defaults.*1.
Proof.
  revert s. induction defaults as [ | item rest IH ]; intros s; simpl.
  - set_solver.
  - rewrite IH, dom_set_default. set_solver.
Qed.

(** X9.  The keys of the session after [initialize_session_state]: a
    session not yet marked ['initialized'] gains exactly the keys of the
    defaults and loses none; a session that is marked keeps exactly its
    keys. *)
Theorem initialization_adds_exactly_the_default_keys
    (defaults : list (string * pyval)) (s : session_state) :
  (s !! "initialized" = None ->
   dom (initialize_with defaults s) = dom s ∪ list_to_set defaults.*1)
  /\ (is_Some (s !! "initialized") -> dom (initialize_with defaults s) = dom s).
Proof.
  unfold initialize_with. split.
  - intros ->. apply dom_apply_defaults.
  - intros [v ->]. reflexivity.
Qed.

Lemma initialized_after (s : session_state) :
  is_Some (initialize_session_state s !! "initialized").
Proof.
  unfold initialize_session_state, initialize_with.
  destruct (s !! "initialized") eqn:E; [ rewrite E; eauto | ].
  apply (SessionFacts.apply_defaults_covers _ _ _ (VBool true)). left.
Qed.

(** X10.  Defaults are applied once per session: after an
    initialisation, a field that is deleted (other than ['initialized'])
    is not put back by the next initialisation; only deleting
    ['initialized'] as well makes the next initialisation restore the
    field to its default. *)
Theorem deleted_field_returns_only_after_reset (s : session_state) (k : string) :
  (k <> "initialized" ->
   initialize_session_state (delete k (initialize_session_state s)) !! k = None)
  /\ initialize_session_state
       (delete "initialized" (delete k (initialize_session_state s))) !! k
     = default_of get_default_session_state k.
Proof.
  split.
  - intros Hk.
    destruct (initialized_after s) as [v Hv].
    unfold initialize_session_state at 1, initialize_with.
    rewrite lookup_delete_ne by congruence. rewrite Hv.
    apply lookup_delete_eq.
  - unfold initialize_session_state at 1, initialize_with.
    rewrite lookup_delete_eq.
    apply SessionFacts.apply_defaults_fills.
    destruct (decide (k = "initialized")) as [-> | Hk].
    + apply lookup_delete_eq.
    + rewrite lookup_delete_ne by congruence. apply lookup_delete_eq.
Qed.

End SessionKeysFacts.

(** ** What a rerun of [main] keeps *)

Module RerunFacts.

Import Rerun.

Lemma setup_user_id (u : string) (s : gmap string pyval) :
  is_Some (session_setup u s !! "user_id")
  /\ is_Some (session_setup u s !! "resume_inputs")
  /\ is_Some (session_setup u s !! "initialized").
Proof.
  unfold session_setup.
  destruct (SessionKeysFacts.initialized_after s) as [i Hi].
  set (s1 := Session.initialize_session_state s) in *.
  destruct (s1 !! "resume_inputs") as [ri | ] eqn:Hr.
  - destruct (s1 !! "user_id") as [uid | ] eqn:Hu.
    + rewrite Hu, Hr, Hi. eauto.
    + rewrite lookup_insert_eq.
      rewrite !lookup_insert_ne by discriminate. rewrite Hr, Hi. eauto.
  - destruct (<["resume_inputs" := VDict []]> s1 !! "user_id") as [uid | ] eqn:Hu.
    + rewrite Hu, lookup_insert_eq.
      rewrite lookup_insert_ne by discriminate. rewrite Hi. eauto.
    + rewrite lookup_insert_eq.
      rewrite lookup_insert_ne by discriminate. rewrite lookup_insert_eq.
      rewrite !lookup_insert_ne by discriminate. rewrite Hi. eauto.
Qed.

(** X11.  The session set-up of [main] is stable across reruns: a second
    run, which would draw another uuid, changes nothing; in particular
    the ['user_id'] of a session is drawn once. *)
Theorem session_setup_is_stable (u1 u2 : string) (s : gmap string pyval) :
  session_setup u2 (session_setup u1 s) = session_setup u1 s.
Proof.
  destruct (setup_user_id u1 s) as ([uid Hu] & [ri Hr] & [i Hi]).
  set (t := session_setup u1 s) in *.
  unfold session_setup.
  unfold Session.initialize_session_state, Session.initialize_with.
  rewrite Hi, Hr, Hu. reflexivity.
Qed.

Ltac run_handlers :=
  unfold ensure_handlers, build, construct, force_refresh,
    Py.try_except, Py.bind, Py.call, Py.ret, Py.modify, Py.get,
    Py.except_ImportError; simpl.

(** X12.  Handlers whose manager has [process_single_resume_async] are
    kept: when the stored resume tab handler passes the attribute test
    and a bulk processor is stored, lines 536-558 import nothing, build
    nothing and leave the session as it is. *)
Theorem settled_handlers_are_kept (w : world) (s : state) (h b : handler) :
  resume_tab_handler s = Some h ->
  has_async h = true ->
  bulk_processor s = Some b ->
  ensure_handlers w s = (s, Ret tt).
Proof.
  intros Hh Ha Hb. run_handlers. rewrite Hh, Ha. simpl. rewrite Hb. reflexivity.
Qed.

Lemma settled_handlers_are_kept_witness :
  ensure_handlers no_resume_processor settled_session = (settled_session, Ret tt).
Proof.
  exact (settled_handlers_are_kept no_resume_processor settled_session _ _
           eq_refl eq_refl eq_refl).
Defined.

(** X13.  Without [resume_processor] the handlers are rebuilt on every
    run: when the import raises [ImportError] and the stored resume tab
    handler fails the attribute test (as one built by the fallback does,
    its manager being [None]), both session fields are replaced by new
    objects without a manager, two warnings are logged, and the new
    resume tab handler fails the test again. *)
Theorem fallback_handlers_are_rebuilt_every_run (w : world) (s : state) (h : handler)
    (e : exn) :
  import_resume_processor w = Raise e ->
  exn_cls e = ImportError ->
  resume_tab_handler s = Some h ->
  has_async h = false ->
  exists l,
    ensure_handlers w s
    = ({| resume_tab_handler :=
            Some {| handler_id := next_id s; resume_manager := None |};
          bulk_processor :=
            Some {| handler_id := S (next_id s); resume_manager := None |};
          next_id := S (S (next_id s));
          rlog := rlog s ++ l |},
       Ret tt)
    /\ length l = 2
    /\ force_refresh (ensure_handlers w s).1 = true.
Proof.
  intros Hi Hc Hh Ha. destruct e as [c m]. simpl in Hc. subst c.
  run_handlers. rewrite Hh, Ha, Hi. simpl.
  destruct (bulk_processor s); simpl;
    (eexists; split; [ rewrite <- app_assoc; reflexivity | split; reflexivity ]).
Qed.

Lemma fallback_handlers_are_rebuilt_every_run_witness :
  exists l,
    ensure_handlers no_resume_processor fallback_session
    = ({| resume_tab_handler := Some {| handler_id := 2; resume_manager := None |};
          bulk_processor := Some {| handler_id := 3; resume_manager := None |};
          next_id := 4;
          rlog := [] ++ l |},
       Ret tt)
    /\ length l = 2
    /\ force_refresh (ensure_handlers no_resume_processor fallback_session).1 = true.
Proof.
  exact (fallback_handlers_are_rebuilt_every_run no_resume_processor fallback_session
           _ _ eq_refl eq_refl eq_refl eq_refl).
Defined.

(** X14.  When lines 536-558 return, both ['resume_tab_handler'] and
    ['bulk_processor'] are in the session (lines 608-609 read them); they
    fail to return only when the import or [get_resume_manager] raises
    something that is not an [ImportError]. *)
Theorem handlers_exist_after_setup (w : world) (s : state) :
  match (ensure_handlers w s).2 with
  | Ret _ =>
      is_Some (resume_tab_handler (ensure_handlers w s).1)
      /\ is_Some (bulk_processor (ensure_handlers w s).1)
  | Raise e =>
      exn_cls e = OtherException
      /\ (import_resume_processor w = Raise e \/ get_resume_manager w = Raise e)
  end.
Proof.
  run_handlers.
  destruct (resume_tab_handler s) as [h | ] eqn:Hh; simpl;
    destruct (bulk_processor s) as [b | ] eqn:Hb; simpl;
    try destruct (negb (has_async h)); simpl;
    destruct (import_resume_processor w) as [[] | [[] m]]; simpl;
    try (destruct (get_resume_manager w) as [mg | [[] m']]; simpl);
    rewrite ?Hh, ?Hb; simpl; eauto.
Qed.

End RerunFacts.


(** ** The tab variables of [main] *)

Module TabsFacts.
Import Tabs.

(** X15.  Whatever the session state holds, each tab variable of [main]
    (lines 661-673) is bound to the tab whose label names it, the last
    variable takes the last tab, and the "Preview ALL" tab is bound
    exactly when both [show_preview_all_tab] and [all_resume_previews]
    are truthy in the session state; it then sits in second position.
    (A run in which [redirect_to_about] is set returns at line 657 and
    creates no tabs.) *)
Theorem tab_variables_match_their_labels (s : gmap string pyval) :
  let labels := tab_labels s in
  let tabs := assign_tabs labels in
  labels !! tab_customizer tabs = Some "Resume Customizer"
  /\ labels !! tab_bulk tabs = Some "Bulk Processor"
  /\ labels !! tab_requirements tabs = Some "Requirements"
  /\ labels !! tab_application_guide tabs = Some "Know About The Application"
  /\ labels !! tab_settings tabs = Some "Settings"
  /\ S (tab_settings tabs) = length labels
  /\ tab_preview_all tabs
     = (if truthy (session_get s "show_preview_all_tab")
           && truthy (session_get s "all_resume_previews")
        then Some 1 else None)
  /\ (forall i, tab_preview_all tabs = Some i -> labels !! i = Some "Preview ALL").
Proof.
  intros labels tabs. subst tabs labels. unfold tab_labels.
  destruct (truthy (session_get s "show_preview_all_tab")
            && truthy (session_get s "all_resume_previews")).
  - vm_compute. repeat (split; [reflexivity|]).
    intros i E. injection E as <-. reflexivity.
  - vm_compute. repeat (split; [reflexivity|]).
    intros i E. discriminate E.
Qed.

End TabsFacts.

(** ** The forms and the validation of the customizer tab *)

Module CustomizerFacts.
Import Customizer.

Lemma rendered_app (a b : list event) :
  rendered (a ++ b) = rendered a ++ rendered b.
Proof.
  induction a as [|e a IH]; [reflexivity|].
  destruct e; simpl; rewrite ?IH; reflexivity.
Qed.

Lemma rendered_render_each (files : list entry) :
  rendered (render_each files) = files.
Proof.
  induction files as [|f files IH]; [reflexivity|].
  unfold render_each in *. simpl. now rewrite IH.
Qed.

Lemma marked_valid_status (file_name text : string) (rest : list event) :
  marked_valid (file_status file_name text :: rest)
  = if String.eqb text "Valid" then file_name :: marked_valid rest
    else marked_valid rest.
Proof.
  destruct (String.eqb text "Valid") eqn:E.
  - apply String.eqb_eq in E. subst text. reflexivity.
  - cbn [marked_valid].
    repeat (match goal with
            | |- context [match ?x with _ => _ end] =>
                lazymatch x with
                | context [match _ with _ => _ end] => fail
                | _ => destruct x; try reflexivity
                end
            end).
    cbv in E. discriminate E.
Qed.

Lemma marked_valid_app (a b : list event) :
  marked_valid (a ++ b) = marked_valid a ++ marked_valid b.
Proof.
  induction a as [|e a IH]; [reflexivity|].
  destruct e; try exact IH.
  rewrite <- app_comm_cons, !marked_valid_status.
  destruct (String.eqb text "Valid"); [|exact IH].
  rewrite IH. reflexivity.
Qed.

Lemma marked_valid_mark_valid (n i : nat) (files : list entry) :
  marked_valid (mark_valid n i files) = map fst files.
Proof.
  revert i. induction files as [|f files IH]; intros i; [reflexivity|].
  simpl. now rewrite IH.
Qed.

Lemma marked_valid_texts (files : list entry) :
  marked_valid (map (fun f : entry => st_text f.1) files) = [].
Proof.
  induction files as [|f files IH]; [reflexivity|exact IH].
Qed.

(** X16.  With more than five uploaded files and no progressive loader,
    the forms of lines 829-835 are rendered for the first five files
    only: a file from the sixth on gets no form.  With the progressive
    loader, this code renders no form itself and hands every file to
    the loader. *)
Theorem files_beyond_the_fifth_get_no_form (all_files : list entry) :
  5 < length all_files ->
  rendered (render_forms false all_files) = take 5 all_files
  /\ (forall i f, 5 <= i -> all_files !! i = Some f ->
        rendered (render_forms false all_files) !! i = None)
  /\ render_forms true all_files
     = [ st_info ("Processing " ++ pretty (length all_files)
                  ++ " files with progressive loading...");
         render_tabs_progressive all_files 3 ].
Proof.
  intros Hn. unfold render_forms.
  assert (E : Nat.ltb 5 (length all_files) = true) by (apply Nat.ltb_lt; lia).
  rewrite E. split; [|split].
  - simpl. apply rendered_render_each.
  - intros i f Hi _. simpl. rewrite rendered_render_each.
    apply lookup_ge_None. rewrite length_take. lia.
  - reflexivity.
Qed.

Lemma files_beyond_the_fifth_get_no_form_witness :
  rendered (render_forms false seven_files) = take 5 seven_files
  /\ (forall i f, 5 <= i -> seven_files !! i = Some f ->
        rendered (render_forms false seven_files) !! i = None)
  /\ render_forms true seven_files
     = [ st_info ("Processing " ++ pretty (length seven_files)
                  ++ " files with progressive loading...");
         render_tabs_progressive seven_files 3 ].
Proof.
  apply (files_beyond_the_fifth_get_no_form seven_files). simpl. lia.
Defined.

(** X17.  With at most five uploaded files, every file gets exactly one
    form, in upload order, whether or not the progressive loader is
    available (lines 837-853). *)
Theorem up_to_five_files_get_one_form_each (loader : bool) (all_files : list entry) :
  length all_files <= 5 ->
  rendered (render_forms loader all_files) = all_files.
Proof.
  intros Hn. unfold render_forms.
  assert (E : Nat.ltb 5 (length all_files) = false) by (apply Nat.ltb_ge; lia).
  rewrite E.
  destruct (Nat.ltb 1 (length all_files)).
  - simpl. rewrite rendered_app, rendered_render_each. simpl.
    apply app_nil_r.
  - apply rendered_render_each.
Qed.

Lemma up_to_five_files_get_one_form_each_witness :
  rendered (render_forms true two_files) = two_files.
Proof.
  apply (up_to_five_files_get_one_form_each true two_files). simpl. lia.
Defined.

(** X18.  Once the button is pressed and [validate_files_async] has
    returned, every file is marked "Valid" on the page, whatever the
    returned value says (lines 787-795); when the value reports
    [success] falsy, the page still marks every file valid and then
    shows the failure toast with the reported message (line 804). *)
Theorem every_file_is_marked_valid_whatever_was_validated
    (async_initialized validation_result : pyval) (all_files : list entry) :
  1 < length all_files ->
  truthy async_initialized = true ->
  let out := validate_all async_initialized true (Ret validation_result) all_files [] in
  marked_valid out.1 = map fst all_files
  /\ (forall ok message,
        py_getitem validation_result "success" = Ret ok ->
        truthy ok = false ->
        py_getitem validation_result "message" = Ret message ->
        out.2 = Ret tt /\ last out.1 = Some (toast_validation_failed message)).
Proof.
  intros Hn Ha out. subst out. unfold validate_all.
  assert (E : Nat.ltb 1 (length all_files) = true) by (apply Nat.ltb_lt; lia).
  rewrite E, Ha. cbn [andb].
  unfold Py.bind, emit, Py.modify, Py.call, Py.ret. cbn [app].
  set (t1 := st_markdown "File Validation Progress" :: _).
  assert (Ht1 : marked_valid t1 = map fst all_files).
  { subst t1. cbn [marked_valid]. rewrite !marked_valid_app.
    rewrite marked_valid_texts, marked_valid_mark_valid. simpl.
    apply app_nil_r. }
  clearbody t1. split.
  - destruct (py_getitem validation_result "success") as [ok|e]; [|exact Ht1].
    destruct (truthy ok).
    + simpl. rewrite marked_valid_app, Ht1. simpl. apply app_nil_r.
    + destruct (py_getitem validation_result "message") as [m|e]; [|exact Ht1].
      simpl. rewrite marked_valid_app, Ht1. simpl. apply app_nil_r.
  - intros ok message Hs Hok Hm. rewrite Hs, Hok, Hm. simpl.
    split; [reflexivity|]. apply last_snoc.
Qed.

Lemma every_file_is_marked_valid_whatever_was_validated_witness :
  let out := validate_all (VBool true) true validation_rejects two_files [] in
  marked_valid out.1 = map fst two_files
  /\ (forall ok message,
        py_getitem (VDict [("success", VBool false);
                           ("message", VStr "b.docx is not a DOCX file")]) "success"
        = Ret ok ->
        truthy ok = false ->
        py_getitem (VDict [("success", VBool false);
                           ("message", VStr "b.docx is not a DOCX file")]) "message"
        = Ret message ->
        out.2 = Ret tt /\ last out.1 = Some (toast_validation_failed message)).
Proof.
  apply (every_file_is_marked_valid_whatever_was_validated
           (VBool true)
           (VDict [("success", VBool false);
                   ("message", VStr "b.docx is not a DOCX file")])
           two_files); [simpl; lia | reflexivity].
Defined.

(** With one file, or while the asynchronous services are not
    initialised, the validation button is not drawn and nothing is
    validated. *)
Lemma no_validation_without_async (async_initialized : pyval) (clicked : bool)
    (validated : result pyval) (all_files : list entry) (t : list event) :
  length all_files <= 1 \/ truthy async_initialized = false ->
  validate_all async_initialized clicked validated all_files t = (t, Ret tt).
Proof.
  intros H. unfold validate_all.
  destruct H as [H|H].
  - assert (E : Nat.ltb 1 (length all_files) = false) by (apply Nat.ltb_ge; lia).
    now rewrite E.
  - rewrite H, andb_false_r. reflexivity.
Qed.

End CustomizerFacts.


(** ** The settings tab *)

Module SettingsFacts.
Import Settings.

(** X19.  Pressing "Force Memory Cleanup" never raises, and its outcome
    depends on the cache-clearing step alone: when the import or the call
    of [clear_lazy_cache] raises something other than an [ImportError],
    the progress stops at the third of five steps, the bar is not
    cleared and the toast reports a partial failure with the exception's
    text; in every other case all five steps are drawn and the success
    toast is shown. *)
Theorem memory_cleanup_reports_only_the_cache_step (w : cleanup_world) :
  let out := force_memory_cleanup w [] in
  out.2 = Ret tt
  /\ match cache_clearing w with
     | Raise (Exn OtherException m) =>
         last out.1 = Some (st_toast ("Cleanup partially failed: " ++ m))
         /\ progress_values out.1
            = 0%Q :: map (fun i => Bulk.fraction i 5) [0; 1; 2]
         /\ ~ In progress_empty out.1
     | _ =>
         last out.1 = Some (st_toast "Memory cleanup completed successfully!")
         /\ progress_values out.1
            = 0%Q :: map (fun i => Bulk.fraction i 5) [0; 1; 2; 3; 4]
     end.
Proof.
  destruct w as [moa opt imp clr]. unfold cache_clearing. cbn [import_lazy_imports clear_lazy_cache].
  destruct moa, opt as [v|eo], imp as [[]|[[] mi]], clr as [[]|[[] mc]];
    vm_compute; (split; [reflexivity|]); repeat (split; [reflexivity|]);
    try reflexivity; intuition discriminate.
Qed.

(** X20.  What the optimizer does in the second step is invisible: the
    page drawn by "Force Memory Cleanup" and its result are the same
    whether [optimize_memory] returns or raises ([except Exception:
    pass], lines 1150-1154). *)
Theorem optimizer_outcome_is_invisible (available : bool) (r1 r2 : result pyval)
    (imp clr : result unit) (t : list event) :
  force_memory_cleanup
    {| MEMORY_OPTIMIZER_AVAILABLE := available; optimize_memory := r1;
       import_lazy_imports := imp; clear_lazy_cache := clr |} t
  = force_memory_cleanup
      {| MEMORY_OPTIMIZER_AVAILABLE := available; optimize_memory := r2;
         import_lazy_imports := imp; clear_lazy_cache := clr |} t.
Proof.
  unfold force_memory_cleanup, cleanup_steps, cleanup_loop, cleanup_operation,
    Py.try_except, Py.bind, Py.except_Exception, Py.except_ImportError,
    emit, Py.modify, Py.call, Py.ret.
  cbn [MEMORY_OPTIMIZER_AVAILABLE optimize_memory import_lazy_imports
       clear_lazy_cache Nat.eqb length].
  destruct available, r1 as [v1|e1], r2 as [v2|e2]; reflexivity.
Qed.

Lemma dict_set_fresh (d : list (string * string)) (k v : string) :
  ~ In k (map fst d) -> dict_set d k v = d ++ [(k, v)].
Proof.
  induction d as [|[k' v'] d IH]; intros Hk; [reflexivity|].
  simpl in *. destruct (String.eqb_spec k' k) as [->|_].
  - exfalso. apply Hk. now left.
  - rewrite IH; [reflexivity|]. intros H. apply Hk. now right.
Qed.

Lemma healthy_count_app (a b : list (string * string)) :
  healthy_count (a ++ b) = healthy_count a + healthy_count b.
Proof.
  unfold healthy_count. now rewrite filter_app, length_app.
Qed.

Lemma check_components_results (n : nat) (checks : list (string * string)) :
  forall (i : nat) (results : list (string * string)),
    List.NoDup (map fst checks) ->
    (forall c, In c (map fst checks) -> ~ In c (map fst results)) ->
    length (check_components n i checks results).2 = length results + length checks
    /\ healthy_count (check_components n i checks results).2
       = healthy_count results + Nat.min (length checks) (4 - i).
Proof.
  induction checks as [|[c d] rest IH]; intros i results Hnd Hfresh.
  - simpl. split; lia.
  - cbn [check_components].
    set (v := if Nat.ltb i 4 then healthy_text else slow_text).
    destruct (check_components n (S i) rest (dict_set results c v)) as [ev final] eqn:E.
    cbn [snd].
    assert (Hfinal : final = (check_components n (S i) rest (dict_set results c v)).2)
      by now rewrite E.
    rewrite (dict_set_fresh results c v) in Hfinal
      by (apply Hfresh; now left).
    simpl in Hnd. apply List.NoDup_cons_iff in Hnd as [Hc Hnd].
    destruct (IH (S i) (results ++ [(c, v)]) Hnd) as [Hlen Hcount].
    { intros c' Hin. rewrite map_app, in_app_iff. simpl.
      intros [H|[H|[]]].
      - apply (Hfresh c'); [now right|exact H].
      - subst c'. exact (Hc Hin). }
    rewrite <- Hfinal in Hlen, Hcount.
    rewrite Hlen, Hcount, length_app, healthy_count_app. simpl length.
    split; [lia|].
    subst v. destruct (Nat.ltb_spec i 4) as [Hi|Hi].
    + change (healthy_count [(c, healthy_text)]) with 1. lia.
    + change (healthy_count [(c, slow_text)]) with 0. lia.
Qed.

Lemma verdict_passes (n : nat) :
  1 <= n ->
  Health.Qgtb (inject_Z (Z.of_nat (Nat.min n 4)) / inject_Z (Z.of_nat n)) (8 # 10) = true
  <-> n <= 4.
Proof.
  intros Hn. unfold Health.Qgtb. rewrite negb_true_iff.
  assert (Hpos : (0 < inject_Z (Z.of_nat n))%Q).
  { unfold Qlt. simpl. lia. }
  split.
  - intros H. destruct (le_lt_dec n 4) as [Hle|Hgt]; [exact Hle|].
    exfalso. assert (Hq : Qle_bool (inject_Z (Z.of_nat (Nat.min n 4))
                                     / inject_Z (Z.of_nat n)) (8 # 10) = true).
    { apply Qle_bool_iff. apply Qle_shift_div_r; [exact Hpos|].
      replace (Nat.min n 4) with 4 by lia.
      unfold Qle. simpl. lia. }
    congruence.
  - intros Hle. destruct (Qle_bool _ _) eqn:E; [|reflexivity].
    exfalso. apply Qle_bool_iff in E.
    replace (Nat.min n 4) with n in E by lia.
    assert (Hlt : (8 # 10 < inject_Z (Z.of_nat n) / inject_Z (Z.of_nat n))%Q).
    { apply Qlt_shift_div_l; [exact Hpos|]. unfold Qlt. simpl. lia. }
    exact (Qlt_not_le _ _ Hlt E).
Qed.

(** X21.  For a list of distinctly named components, the simulated
    health check of the "Run Health Check" button (lines 1180-1225)
    returns, and it ends with the toast "passed" exactly when there are
    at most four components: only the first four are marked healthy, and
    the score must exceed 0.8.  With the five components of the source
    the score is 4/5, which is not greater, and the toast is "Some issues
    detected". *)
Theorem health_check_button_passes_only_up_to_four_components
    (checks : list (string * string)) :
  List.NoDup (map fst checks) ->
  1 <= length checks ->
  let out := run_health_check checks [] in
  out.2 = Ret tt
  /\ (last out.1 = Some passed_toast <-> length checks <= 4)
  /\ (last out.1 = Some issues_toast <-> 5 <= length checks).
Proof.
  intros Hnd Hn out. subst out. unfold run_health_check.
  destruct (check_components_results (length checks) checks 0 [] Hnd)
    as [Hlen Hcount]; [intros c _ []|].
  destruct (check_components (length checks) 0 checks []) as [events results].
  cbn [snd] in Hlen, Hcount. simpl in Hlen.
  change (healthy_count []) with 0 in Hcount. simpl in Hcount.
  replace (Nat.min (length checks) (4 - 0)) with (Nat.min (length checks) 4) in Hcount
    by reflexivity.
  unfold Py.bind, emit, Py.modify, Py.raise. cbn [app fst snd].
  rewrite Hlen, Hcount.
  destruct (Nat.eqb_spec (length checks) 0) as [H0|_]; [lia|].
  pose proof (verdict_passes (length checks) Hn) as Hv.
  destruct (Health.Qgtb _ _).
  - cbn [fst snd]. rewrite last_snoc.
    split; [reflexivity|]. split.
    + split; [intros _; now apply Hv|reflexivity].
    + split; [intros H; discriminate H|].
      intros H. assert (length checks <= 4) by now apply Hv. lia.
  - cbn [fst snd]. rewrite last_snoc.
    split; [reflexivity|]. split.
    + split; [intros H; discriminate H|].
      intros H. apply Hv in H. discriminate H.
    + split; [|reflexivity].
      intros _. destruct (le_lt_dec (length checks) 4) as [Hle|Hgt]; [|lia].
      apply Hv in Hle. discriminate Hle.
Qed.

Lemma source_components_are_distinct : List.NoDup (map fst health_checks).
Proof.
  repeat (apply List.NoDup_cons; [simpl; intuition discriminate|]).
  apply List.NoDup_nil.
Qed.

Lemma health_check_button_passes_only_up_to_four_components_witness :
  let out := run_health_check health_checks [] in
  out.2 = Ret tt
  /\ (last out.1 = Some passed_toast <-> length health_checks <= 4)
  /\ (last out.1 = Some issues_toast <-> 5 <= length health_checks).
Proof.
  apply (health_check_button_passes_only_up_to_four_components health_checks).
  - exact source_components_are_distinct.
  - simpl. lia.
Defined.

(** The same verdict in binary64 arithmetic, for 1 to 300 components:
    the float comparison of line 1222 holds exactly up to four. *)
Lemma float_verdict_up_to_300_components :
  forallb (fun n => Bool.eqb (float_verdict n) (Nat.leb n 4)) (seq 1 300) = true.
Proof. vm_compute. reflexivity. Qed.

(** X22.  In every run of [main] that gets past the health check of
    lines 519-534, the status handed on is healthy; the dashboard of
    lines 1228-1243 therefore starts with "Application is healthy" and
    draws no error: its branch "Application has issues" is never
    taken. *)
Theorem dashboard_never_shows_issues (c : Main.config) (w : Health.world) (now : Z)
    (a : Main.app) (health_status : Health.returned) :
  (Main.main_health_check c w now a).2 = Ret (Main.Entered health_status) ->
  Health.get_healthy health_status = Ret true
  /\ forall t, exists rest,
       (health_display health_status t).1
       = t ++ [ st_success "Application is healthy";
                st_metric "Health Score" "98%";
                st_metric "Uptime" "2h 34m" ] ++ rest
       /\ forallb (fun e => negb (is_error e)) rest = true.
Proof.
  intros H.
  assert (Hh : Health.get_healthy health_status = Ret true).
  { revert H. unfold Main.main_health_check, Py.bind, Py.get, Py.ret, Py.call,
      Main.set_session, Main.emit, Py.modify.
    destruct (Main.session_state a !! "async_initialized"); cbn [fst snd].
    all: match goal with |- context [truthy ?v] => destruct (truthy v) end.
    all: try match goal with
         | |- context [Main.in_health ?m ?a0] =>
             unfold Main.in_health;
             destruct (m (Main.health a0)) as [h [r|e]]
         end; cbn [fst snd].
    all: try (intros H; discriminate H).
    all: match goal with
         | |- context [Health.get_healthy ?r] =>
             destruct (Health.get_healthy r) as [[]|e] eqn:E
         end; cbn [negb fst snd].
    all: try (intros H; discriminate H).
    all: try (intros H; injection H as <-; exact E).
    all: match goal with
         | |- context [Health.get_issues ?r] =>
             destruct (Health.get_issues r) as [l|e']; cbn [fst snd]
         end.
    all: try (intros H; discriminate H).
    all: match goal with
         | |- context [Main.show_issues ?l0 ?a0] =>
             destruct (Main.show_issues l0 a0) as [a' [[]|e']]
         end; intros H; discriminate H. }
  split; [exact Hh|].
  intros t. unfold health_display, Py.bind, Py.call, emit, Py.modify, Py.ret.
  rewrite Hh. cbn [fst snd].
  destruct (get_warnings health_status) as [[|x ws]|e]; cbn [fst snd].
  - exists []. split; reflexivity.
  - exists [st_warnings (x :: ws)]. split; [|reflexivity].
    now rewrite <- app_assoc.
  - exists []. split; reflexivity.
Qed.

Lemma dashboard_never_shows_issues_witness :
  Health.get_healthy Main.fast_mode_status = Ret true
  /\ forall t, exists rest,
       (health_display Main.fast_mode_status t).1
       = t ++ [ st_success "Application is healthy";
                st_metric "Health Score" "98%";
                st_metric "Uptime" "2h 34m" ] ++ rest
       /\ forallb (fun e => negb (is_error e)) rest = true.
Proof.
  apply (dashboard_never_shows_issues Scenario.fallbacks_only Scenario.docx_missing 0
           (Main.new_app ∅) Main.fast_mode_status).
  reflexivity.
Defined.

(** X23.  Ticking "Show Detailed Performance Data" without a usable
    summary raises instead of informing the user: when the performance
    monitor is unavailable or falsy, or [get_performance_summary]
    raises, [summary] is still [None] at line 1278 and [summary.get]
    raises an [AttributeError]; the message "Performance data not
    available" of line 1340 is not drawn. *)
Theorem missing_summary_raises_instead_of_informing (available : bool)
    (monitor : pyval) (get_performance_summary : result pyval) (t : list event) :
  available && truthy monitor = false
  \/ imported get_performance_summary = false ->
  let out := performance_data true available monitor get_performance_summary t in
  out.2 = Raise (Exn OtherException "AttributeError: object has no attribute 'get'")
  /\ out.1 = t ++ (if available && truthy monitor
                   then match get_performance_summary with
                        | Raise e => [st_warning_collect (exn_msg e)]
                        | Ret _ => []
                        end
                   else []).
Proof.
  intros H out. subst out.
  unfold performance_data, Py.bind, Py.try_except, Py.except_Exception, Py.call,
    emit, Py.modify, Py.ret.
  destruct (available && truthy monitor).
  - destruct H as [H|H]; [discriminate H|].
    destruct get_performance_summary as [v|e]; [discriminate H|].
    cbn. split; reflexivity.
  - cbn. split; [reflexivity|]. now rewrite app_nil_r.
Qed.

Lemma missing_summary_raises_instead_of_informing_witness :
  let out := performance_data true false VNone (Ret VNone) [] in
  out.2 = Raise (Exn OtherException "AttributeError: object has no attribute 'get'")
  /\ out.1 = [].
Proof.
  apply (missing_summary_raises_instead_of_informing false VNone (Ret VNone) []).
  left. reflexivity.
Defined.

End SettingsFacts.

(** ** [cleanup_on_exit] *)

Module ExitFacts.
Import Exit.

Ltac run_exit :=
  unfold cleanup_on_exit, Py.try_except, Py.bind, Py.except_Exception,
    Py.except_ImportError, Py.call, called, logger, Py.modify, Py.ret;
  cbn.

(** X24.  [cleanup_on_exit] never raises, whatever its imports and
    calls do, and it writes exactly one log entry: the completion at
    level INFO or the error at level ERROR. *)
Theorem cleanup_on_exit_never_raises (w : world) (s : state) :
  (cleanup_on_exit w s).2 = Ret tt
  /\ exists lvl msg, exit_log (cleanup_on_exit w s).1 = exit_log s ++ [(lvl, msg)]
       /\ (lvl = INFO \/ lvl = ERROR).
Proof.
  destruct w as [ipm cpm idp cdr ema cac].
  run_exit.
  destruct ipm as [[]|e1]; cbn;
    [destruct cpm as [[]|e2]; cbn;
       [destruct idp as [[]|[[] m3]]; cbn;
          [destruct cdr as [[]|[[] m4]]; cbn| |];
          try (destruct ema; cbn; [destruct cac as [[]|e5]; cbn|]) |] |].
  all: split; [reflexivity|]; eexists _, _; split; [reflexivity|]; auto.
Qed.

(** X25.  The email connections are closed on exit exactly when an
    email manager is available and every earlier step let control
    through: the performance monitor's cleanup was imported and
    returned, and the document step returned or raised an
    [ImportError].  A missing performance-monitor module thus leaves the
    connections open. *)
Theorem connections_are_closed_only_after_the_earlier_steps (w : world) :
  In close_all_connections_called (calls (cleanup_on_exit w start).1)
  <-> (EMAIL_MANAGER_AVAILABLE w = true
       /\ imported (import_performance_monitor w) = true
       /\ imported (cleanup_performance_monitor w) = true
       /\ document_step_passes w = true).
Proof.
  destruct w as [ipm cpm idp cdr ema cac].
  unfold document_step_passes. run_exit.
  destruct ipm as [[]|e1]; cbn;
    [destruct cpm as [[]|e2]; cbn;
       [destruct idp as [[]|[[] m3]]; cbn;
          [destruct cdr as [[]|[[] m4]]; cbn| |];
          try (destruct ema; cbn; [destruct cac as [[]|e5]; cbn|]) |] |].
  all: try destruct ema; cbn; intuition discriminate.
Qed.

(** Without the performance-monitor module nothing is cleaned up. *)
Example missing_monitor_leaves_connections_open :
  calls (cleanup_on_exit no_performance_monitor start).1 = []
  /\ exit_log (cleanup_on_exit no_performance_monitor start).1
     = [(ERROR, "Error during cleanup: No module named 'infrastructure'")].
Proof. split; reflexivity. Qed.

End ExitFacts.


(** ** The forms of the requirements tab *)

Module RequirementsFormsFacts.
Import RequirementsForms.

Ltac run_forms :=
  unfold render_forms, load_requirement, save, loaded, Py.try_except, Py.bind,
    Py.except_Exception, Py.except_ImportError, Py.call, emit, Py.modify, Py.ret.

(** Destructs the innermost scrutinee of the goal. *)
Ltac split_forms :=
  repeat (cbn [fst snd negb exn_cls];
          match goal with
          | |- context [match ?x with _ => _ end] =>
              lazymatch x with
              | context [match _ with _ => _ end] => fail
              | context [if _ then _ else _] => fail
              | _ => destruct x eqn:?
              end
          | |- context [if ?x then _ else _] =>
              lazymatch x with
              | context [match _ with _ => _ end] => fail
              | context [if _ then _ else _] => fail
              | _ => destruct x eqn:?
              end
          end).

Lemma updates_app (a b : list event) : updates (a ++ b) = updates a ++ updates b.
Proof.
  induction a as [|e a IH]; [reflexivity|].
  destruct e; simpl; rewrite ?IH; reflexivity.
Qed.

Lemma creates_app (a b : list event) : creates (a ++ b) = creates a ++ creates b.
Proof.
  induction a as [|e a IH]; [reflexivity|].
  destruct e; simpl; rewrite ?IH; reflexivity.
Qed.

Lemma lists_rendered_app (a b : list event) :
  lists_rendered (a ++ b) = lists_rendered a + lists_rendered b.
Proof.
  induction a as [|e a IH]; [reflexivity|].
  destruct e; simpl; rewrite ?IH; reflexivity.
Qed.


(** X27.  When the form returns truthy data, the requirement is saved
    by exactly one call: [update_requirement(edit_id, form_data)] when
    a requirement was loaded for editing and is truthy,
    [create_requirement(form_data)] in every other case.  In
    particular an edit link whose requirement cannot be loaded (the
    manager returns a falsy value or raises) makes the submitted form
    create a new requirement. *)
Theorem submitted_form_is_saved_by_one_call (w : world) (form_data : pyval) :
  import_requirements_ui w = Ret tt ->
  render_requirement_form w (loaded w) = Ret form_data ->
  truthy form_data = true ->
  let events := (render_forms w []).1 in
  if truthy (loaded w)
  then updates events = [(edit_id w, form_data)] /\ creates events = []
  else updates events = [] /\ creates events = [form_data].
Proof.
  intros Hi Hf Ht events. subst events. revert Hf.
  run_forms. rewrite Hi. cbn [fst snd negb].
  destruct (truthy (edit_id w)) eqn:He; cbn [fst snd].
  - destruct (get_requirement w (edit_id w)) as [r|e] eqn:Hg; cbn [fst snd].
    + destruct (truthy r) eqn:Hr; cbn [fst snd negb]; intros Hf; rewrite Hf;
        cbn [fst snd]; rewrite Ht; cbn [fst snd]; rewrite ?Hr; cbn [fst snd].
      * destruct (update_requirement w (edit_id w) form_data) as [u|e]; cbn [fst snd];
          [destruct (truthy u)|]; cbn [fst snd];
          destruct (render_requirements_list w) as [[]|e']; cbn [fst snd];
          split; reflexivity.
      * destruct (create_requirement w form_data) as [u|e]; cbn [fst snd];
          [destruct (truthy u)|]; cbn [fst snd];
          destruct (render_requirements_list w) as [[]|e']; cbn [fst snd];
          split; reflexivity.
    + intros Hf; rewrite Hf; cbn [fst snd truthy]; rewrite Ht; cbn [fst snd].
      destruct (create_requirement w form_data) as [u|e']; cbn [fst snd];
        [destruct (truthy u)|]; cbn [fst snd];
        destruct (render_requirements_list w) as [[]|e'']; cbn [fst snd];
        split; reflexivity.
  - intros Hf; rewrite Hf; cbn [fst snd truthy]; rewrite Ht; cbn [fst snd].
    destruct (create_requirement w form_data) as [u|e']; cbn [fst snd];
      [destruct (truthy u)|]; cbn [fst snd];
      destruct (render_requirements_list w) as [[]|e'']; cbn [fst snd];
      split; reflexivity.
Qed.

Lemma submitted_form_is_saved_by_one_call_witness :
  let events := (render_forms stale_edit_link []).1 in
  updates events = []
  /\ creates events = [VDict [("job_title", VStr "Engineer")]].
Proof.
  exact (submitted_form_is_saved_by_one_call stale_edit_link
           (VDict [("job_title", VStr "Engineer")]) eq_refl eq_refl eq_refl).
Defined.

(** X28.  The list of requirements is drawn at most once, and exactly
    when the import of the render functions succeeded and the form was
    rendered without raising: a failure while saving does not hide the
    list, a failure of the form does (the [return] of line 459). *)
Theorem list_is_drawn_iff_the_form_was (w : world) :
  lists_rendered (render_forms w []).1
  = if imported (import_requirements_ui w)
       && imported (render_requirement_form w (loaded w))
    then 1 else 0.
Proof.
  run_forms. unfold imported. split_forms; simpl in *; try discriminate; reflexivity.
Qed.

(** A form that cannot be drawn ends the tab with its error alone. *)
Example broken_form_hides_the_list :
  render_forms form_breaks []
  = ([ st_tabs ["Create/Edit Requirement"; "View Requirements"];
       render_requirement_form_called VNone;
       st_error "Error rendering requirement form: duplicate widget key" ],
     Ret FormFailed).
Proof. reflexivity. Qed.

End RequirementsFormsFacts.


(** ** The requirements tab of [main] *)

Module RequirementsPanelFacts.
Import RequirementsPanel.

(** X29.  In the requirements tab of [main], an [ImportError] raised
    after the import itself (by the smart-customization panel or by the
    analytics) is caught by the same [except ImportError] as a failed
    import: the basic tab, already drawn in the first sub-tab, is drawn
    a second time.  The tab is drawn once when nothing raises or when
    the import raises an [ImportError]; any other exception leaves the
    block. *)
Theorem late_ImportError_draws_the_tab_twice (w : world) :
  let out := requirements_tab w [] in
  match first_failure w with
  | None => out.2 = Ret tt /\ tab_renderings out.1 = 1
  | Some e =>
      match exn_cls e with
      | ImportError =>
          out.2 = Ret tt
          /\ tab_renderings out.1
             = (if imported (import_requirements_integration w) then 2 else 1)
      | OtherException =>
          out.2 = Raise e
          /\ tab_renderings out.1
             = (if imported (import_requirements_integration w) then 1 else 0)
      end
  end.
Proof.
  destruct w as [imp smart analytics]. unfold first_failure, requirements_tab.
  cbn [import_requirements_integration render_smart_customization_panel
       render_requirements_analytics].
  destruct imp as [[]|[[] m1]]; [destruct smart as [[]|[[] m2]];
                                 [destruct analytics as [[]|[[] m3]]| |]| |];
    split; reflexivity.
Qed.

(** The scenario of a panel that fails on a lazy import. *)
Example panel_failure_draws_the_tab_twice :
  requirements_tab panel_import_fails []
  = ([ st_header "Requirements Management";
       st_markdown "Manage job requirements and customize resumes for specific positions";
       st_tabs ["Create/View"; "Smart Customization"; "Analytics"];
       render_requirements_tab_called;
       render_smart_customization_panel_called;
       logger_warning
         "Enhanced requirements features not available: No module named 'sklearn'";
       render_requirements_tab_called ],
     Ret tt).
Proof. reflexivity. Qed.

End RequirementsPanelFacts.
